(** * AdminDashboardApp: the post store, its payload validation and the
      frontend HTTP client, embedded in Rocq.

    Sources embedded here:
    - backend [posts.service.ts] (class [PostsService]),
    - backend [dto/create-post.dto.ts] and [dto/update-post.dto.ts], with the
      validation pipe options of [main.ts],
    - frontend [services/api.ts] (class [ApiClient], [validateApiResponse]),
    - frontend [services/postService.ts] and [services/userService.ts]
      (classes [PostService] and [UserService]),
    - frontend helpers ([validateEmail], [validateUsername], [truncateText],
      [handleApiError]).

    Conventions of the embedding:
    - a JavaScript [number] used as an identifier or an HTTP status is a [Z];
      the truthiness test of such a number is "different from 0";
    - an optional property of a payload is an [option]: [None] is the absent
      property;
    - a method of [PostsService] is a computation in a state-and-exception
      monad over the service's two private fields; a [throw] hands back the
      state as it stands at the moment of the throw. *)

From Stdlib Require Import ZArith QArith Lia Ascii.
From stdpp Require Import list strings pretty gmap.

Local Set Warnings "-register-all".
Local Open Scope string_scope.
Local Open Scope list_scope.
Local Open Scope Z_scope.

(** ** JavaScript array helpers *)

Section js_array.
Context {A : Type}.

(** [Array.prototype.findIndex]: the first index whose element satisfies
    [f], or -1. *)
Fixpoint findIndex_from (f : A -> bool) (l : list A) (i : Z) : Z :=
  match l with
  | [] => -1
  | x :: l' => if f x then i else findIndex_from f l' (i + 1)
  end.

Definition findIndex (f : A -> bool) (l : list A) : Z := findIndex_from f l 0.

(** [Array.prototype.find]: the first element that satisfies [f], or
    [undefined]. *)
Fixpoint find (f : A -> bool) (l : list A) : option A :=
  match l with
  | [] => None
  | x :: l' => if f x then Some x else find f l'
  end.

(** [arr.splice(i, 1)] for an index [0 <= i]. *)
Definition splice1 (i : Z) (l : list A) : list A := delete (Z.to_nat i) l.

(** [arr[i] = x] for an index [0 <= i < arr.length]. *)
Definition assign (i : Z) (x : A) (l : list A) : list A := <[Z.to_nat i := x]> l.
End js_array.

(** Template-literal rendering of a number: [`${n}`]. *)
Definition show (n : Z) : string := pretty n.

(** ** The post store *)

Module PostsService.

(** [entities/post.entity.ts] as used by the service. *)
Record Post := mkPost {
  post_id : Z;
  post_userId : Z;
  post_title : string;
  post_body : string
}.

(** [CreatePostDto]: three required properties. *)
Record CreatePostDto := mkCreate {
  create_userId : Z;
  create_title : string;
  create_body : string
}.

(** [UpdatePostDto extends PartialType(CreatePostDto)] with its own optional
    [id]: four optional properties. *)
Record UpdatePostDto := mkUpdate {
  update_userId : option Z;
  update_title : option string;
  update_body : option string;
  update_id : option Z
}.

(** The two exception classes the service throws. *)
Inductive HttpException :=
| NotFoundException (message : string)
| BadRequestException (message : string).

(** [HttpException.getStatus()] of the two classes. *)
Definition getStatus (e : HttpException) : Z :=
  match e with
  | NotFoundException _ => 404
  | BadRequestException _ => 400
  end.

(** The private fields [posts] and [nextId]. *)
Record State := mkState {
  posts : list Post;
  nextId : Z
}.

(** *** State-and-exception monad *)

Inductive Outcome (A : Type) :=
| Returned (a : A)
| Thrown (e : HttpException).
Arguments Returned {A} a.
Arguments Thrown {A} e.

Definition M (A : Type) : Type := State -> Outcome A * State.

Definition ret {A} (a : A) : M A := fun s => (Returned a, s).
Definition throw {A} (e : HttpException) : M A := fun s => (Thrown e, s).
Definition bind {A B} (m : M A) (k : A -> M B) : M B :=
  fun s =>
    match m s with
    | (Returned a, s') => k a s'
    | (Thrown e, s') => (Thrown e, s')
    end.
Definition this : M State := fun s => (Returned s, s).
Definition set_posts (l : list Post) : M unit :=
  fun s => (Returned tt, mkState l (nextId s)).
Definition set_nextId (n : Z) : M unit :=
  fun s => (Returned tt, mkState (posts s) n).

Declare Scope post_monad_scope.
Delimit Scope post_monad_scope with pm.
Notation "x <- c1 ;; c2" := (bind c1 (fun x => c2))
  (at level 100, c1 at next level, right associativity) : post_monad_scope.
Notation "c1 ;;; c2" := (bind c1 (fun _ => c2))
  (at level 100, right associativity) : post_monad_scope.
Local Open Scope post_monad_scope.

(** [this.nextId++]: yields the old value, stores the successor. *)
Definition nextId_incr : M Z :=
  s <- this ;;
  set_nextId (nextId s + 1) ;;;
  ret (nextId s).

(** [this.posts.push(p)]. *)
Definition posts_push (p : Post) : M unit :=
  s <- this ;;
  set_posts (posts s ++ [p]).

(** [{ ...post, ...updatePostDto }]: every property present in the payload
    replaces the post's property of that name. *)
Definition spread (post : Post) (dto : UpdatePostDto) : Post :=
  {| post_id := default (post_id post) (update_id dto);
     post_userId := default (post_userId post) (update_userId dto);
     post_title := default (post_title post) (update_title dto);
     post_body := default (post_body post) (update_body dto) |}.

(** Truthiness of a number: 0 is falsy. *)
Definition truthy (n : Z) : bool := negb (n =? 0).

Section service.
(** [UsersService.exists], the injected user-store lookup. *)
Variable usersService_exists : Z -> bool.

Definition findAll : M (list Post) :=
  s <- this ;;
  ret (posts s).

Definition findOne (id : Z) : M Post :=
  s <- this ;;
  match find (fun post => post_id post =? id) (posts s) with
  | None => throw (NotFoundException ("Post with ID " +:+ show id +:+ " not found"))
  | Some post => ret post
  end.

Definition create (createPostDto : CreatePostDto) : M Post :=
  if negb (usersService_exists (create_userId createPostDto)) then
    throw (BadRequestException
             ("User with ID " +:+ show (create_userId createPostDto) +:+ " not found"))
  else
    id <- nextId_incr ;;
    let newPost := {| post_id := id;
                      post_userId := create_userId createPostDto;
                      post_title := create_title createPostDto;
                      post_body := create_body createPostDto |} in
    posts_push newPost ;;;
    ret newPost.

(** The guard [updatePostDto.userId && !this.usersService.exists(...)]:
    yields the refused [userId] when the guard holds. An absent [userId]
    is [undefined], which is falsy. *)
Definition userId_refused (updatePostDto : UpdatePostDto) : option Z :=
  match update_userId updatePostDto with
  | None => None
  | Some userId =>
      if truthy userId && negb (usersService_exists userId) then Some userId
      else None
  end.

(** The read [this.posts[postIndex]] happens after the -1 test; lemma
    [findIndex_lookup] below shows the index is then in range, so the
    [None] branch of the read is dead code of the embedding. *)
Definition update (id : Z) (updatePostDto : UpdatePostDto) : M Post :=
  s <- this ;;
  let postIndex := findIndex (fun post => post_id post =? id) (posts s) in
  if postIndex =? -1 then
    throw (NotFoundException ("Post with ID " +:+ show id +:+ " not found"))
  else
    match userId_refused updatePostDto with
    | Some userId =>
        throw (BadRequestException ("User with ID " +:+ show userId +:+ " not found"))
    | None =>
        match posts s !! Z.to_nat postIndex with
        | None =>
            throw (NotFoundException ("Post with ID " +:+ show id +:+ " not found"))
        | Some current =>
            let updatedPost := spread current updatePostDto in
            set_posts (assign postIndex updatedPost (posts s)) ;;;
            ret updatedPost
        end
    end.

Definition remove (id : Z) : M unit :=
  s <- this ;;
  let postIndex := findIndex (fun post => post_id post =? id) (posts s) in
  if postIndex =? -1 then
    throw (NotFoundException ("Post with ID " +:+ show id +:+ " not found"))
  else
    set_posts (splice1 postIndex (posts s)).

Definition findByUserId (userId : Z) : M (list Post) :=
  s <- this ;;
  ret (List.filter (fun post => post_userId post =? userId) (posts s)).
End service.

(** *** The seeded store *)

(** The escape [\n] of the fixture strings. *)
Definition LF : string := String (Ascii.ascii_of_nat 10) EmptyString.

Definition seed_posts : list Post := [
  {| post_id := 1; post_userId := 1;
     post_title :=
       "sunt aut facere repellat provident occaecati excepturi optio reprehenderit";
     post_body := "quia et suscipit" +:+ LF
       +:+ "suscipit recusandae consequuntur expedita et cum" +:+ LF
       +:+ "reprehenderit molestiae ut ut quas totam" +:+ LF
       +:+ "nostrum rerum est autem sunt rem eveniet architecto" |};
  {| post_id := 2; post_userId := 1;
     post_title := "qui est esse";
     post_body := "est rerum tempore vitae" +:+ LF
       +:+ "sequi sint nihil reprehenderit dolor beatae ea dolores neque" +:+ LF
       +:+ "fugiat blanditiis voluptate porro vel nihil molestiae ut reiciendis" +:+ LF
       +:+ "qui aperiam non debitis possimus qui neque nisi nulla" |};
  {| post_id := 3; post_userId := 1;
     post_title := "ea molestias quasi exercitationem repellat qui ipsa sit aut";
     post_body := "et iusto sed quo iure" +:+ LF
       +:+ "voluptatem occaecati omnis eligendi aut ad" +:+ LF
       +:+ "voluptatem doloribus vel accusantium quis pariatur" +:+ LF
       +:+ "molestiae porro eius odio et labore et velit aut" |};
  {| post_id := 4; post_userId := 1;
     post_title := "eum et est occaecati";
     post_body := "ullam et saepe reiciendis voluptatem adipisci" +:+ LF
       +:+ "sit amet autem assumenda provident rerum culpa" +:+ LF
       +:+ "quis hic commodi nesciunt rem tenetur doloremque ipsam iure" +:+ LF
       +:+ "quis sunt voluptatem rerum illo velit" |};
  {| post_id := 5; post_userId := 1;
     post_title := "nesciunt quas odio";
     post_body := "repudiandae veniam quaerat sunt sed" +:+ LF
       +:+ "alias aut fugiat sit autem sed est" +:+ LF
       +:+ "voluptatem omnis possimus esse voluptatibus quis" +:+ LF
       +:+ "est aut tenetur dolor neque" |};
  {| post_id := 6; post_userId := 2;
     post_title := "dolorem eum magni eos aperiam quia";
     post_body := "ut aspernatur corporis harum nihil quis provident sequi" +:+ LF
       +:+ "mollitia nobis aliquid molestiae" +:+ LF
       +:+ "perspiciatis et ea nemo ab reprehenderit accusantium quas" +:+ LF
       +:+ "voluptate dolores velit et doloremque molestiae" |};
  {| post_id := 7; post_userId := 2;
     post_title := "magnam facilis autem";
     post_body := "dolore placeat quibusdam ea quo vitae" +:+ LF
       +:+ "magni quis enim qui quis quo nemo aut saepe" +:+ LF
       +:+ "quidem repellat excepturi ut quia" +:+ LF
       +:+ "sunt ut sequi eos ea sed quas" |};
  {| post_id := 8; post_userId := 2;
     post_title := "dolorem dolore est ipsam";
     post_body := "dignissimos aperiam dolorem qui eum" +:+ LF
       +:+ "facilis quibusdam animi sint suscipit qui sint possimus cum" +:+ LF
       +:+ "quaerat magni maiores excepturi" +:+ LF
       +:+ "ipsam ut commodi dolor voluptatum modi aut vitae" |};
  {| post_id := 9; post_userId := 3;
     post_title := "nesciunt iure omnis dolorem tempora et accusantium";
     post_body := "consectetur animi nesciunt iure dolore" +:+ LF
       +:+ "enim quia ad" +:+ LF
       +:+ "veniam autem ut quam aut nobis" +:+ LF
       +:+ "et est aut quod aut provident voluptas autem voluptas" |};
  {| post_id := 10; post_userId := 3;
     post_title := "optio molestias id quia eum";
     post_body := "quo et expedita modi cum officia vel magni" +:+ LF
       +:+ "doloribus qui repudiandae" +:+ LF
       +:+ "vero nisi sit" +:+ LF
       +:+ "quos veniam quod sed accusamus veritatis error" |}
].

(** The state of a freshly constructed [PostsService]. *)
Definition seeded : State := {| posts := seed_posts; nextId := 11 |}.

(** *** Histories of store operations *)

Inductive Op :=
| OpCreate (createPostDto : CreatePostDto)
| OpUpdate (id : Z) (updatePostDto : UpdatePostDto)
| OpRemove (id : Z).

(** The state a call leaves behind, whether it returns or throws. *)
Definition exec (usersService_exists : Z -> bool) (s : State) (op : Op) : State :=
  match op with
  | OpCreate dto => snd (create usersService_exists dto s)
  | OpUpdate id dto => snd (update usersService_exists id dto s)
  | OpRemove id => snd (remove id s)
  end.

(** Whether the call returns. *)
Definition succeeds (usersService_exists : Z -> bool) (s : State) (op : Op) : bool :=
  let returned {A} (o : Outcome A) := match o with Returned _ => true | Thrown _ => false end in
  match op with
  | OpCreate dto => returned (fst (create usersService_exists dto s))
  | OpUpdate id dto => returned (fst (update usersService_exists id dto s))
  | OpRemove id => returned (fst (remove id s))
  end.

Definition run (usersService_exists : Z -> bool) (ops : list Op) (s : State) : State :=
  foldl (exec usersService_exists) s ops.

(** An operation whose payload does not carry an [id] other than the id the
    call addresses: every create, every remove, and an update whose payload
    has no [id] property or repeats the addressed id (as the frontend's
    [PostService.updatePost] does). *)
Definition keeps_id (op : Op) : Prop :=
  match op with
  | OpUpdate id dto => update_id dto = None \/ update_id dto = Some id
  | _ => True
  end.

(** Identifiers are pairwise distinct and all below the counter. *)
Definition ids (s : State) : list Z := map post_id (posts s).

Definition ids_wf (s : State) : Prop :=
  NoDup (ids s) /\ Forall (fun i => i < nextId s) (ids s).

(** Every post's owner is known to the user store. *)
Definition owners_exist (usersService_exists : Z -> bool) (s : State) : Prop :=
  Forall (fun post => usersService_exists (post_userId post) = true) (posts s).

(** A stand-in user store for concrete runs: the users the seeded posts
    reference (1, 2 and 3) exist, no other does. The real [UsersService]
    enters every definition above only through the parameter
    [usersService_exists]. *)
Definition sample_exists (id : Z) : bool := (1 <=? id) && (id <=? 3).

End PostsService.

(** ** Decoded JSON values *)

(** A number is a rational here: JSON has no NaN and no infinities. An
    object is the list of its properties, first occurrence deciding. *)
Inductive json :=
| JNull
| JBool (b : bool)
| JNumber (q : Q)
| JString (s : string)
| JArray (items : list json)
| JObject (properties : list (string * json)).

(** Own property of a list of properties; [None] is [undefined]. *)
Fixpoint property (key : string) (properties : list (string * json)) : option json :=
  match properties with
  | [] => None
  | (k, v) :: rest => if String.eqb k key then Some v else property key rest
  end.

(** ** Payload validation at the backend boundary *)

Module Validation.

(** The class-validator decorators the two DTO classes carry. *)
Inductive Decorator :=
| IsNumber
| IsNotEmpty
| IsString
| MinLength (min : nat) (message : string)
| IsOptional.

(** A DTO class as the validator sees it: its decorated properties, in
    declaration order. *)
Definition DtoClass := list (string * list Decorator).

(** [create-post.dto.ts]. *)
Definition CreatePostDto : DtoClass := [
  ("userId", [IsNumber; IsNotEmpty]);
  ("title", [IsString; IsNotEmpty;
             MinLength 5 "Title must be at least 5 characters long"]);
  ("body", [IsString; IsNotEmpty;
            MinLength 10 "Body must be at least 10 characters long"])
].

(** [PartialType] of [@nestjs/mapped-types]: the same properties with the
    same decorators, each one made optional. *)
Definition PartialType (c : DtoClass) : DtoClass :=
  map (fun '(name, decorators) => (name, decorators ++ [IsOptional])) c.

(** [update-post.dto.ts]. *)
Definition UpdatePostDto : DtoClass :=
  PartialType CreatePostDto ++ [("id", [IsNumber; IsOptional])].

(** Whether a property value ([None] is [undefined]) satisfies a decorator.
    [MinLength] counts the characters of a string; [IsOptional] by itself
    constrains nothing. *)
Definition satisfies (d : Decorator) (value : option json) : bool :=
  match d, value with
  | IsNumber, Some (JNumber _) => true
  | IsNumber, _ => false
  | IsNotEmpty, None => false
  | IsNotEmpty, Some JNull => false
  | IsNotEmpty, Some (JString s) => negb (String.eqb s "")
  | IsNotEmpty, Some _ => true
  | IsString, Some (JString _) => true
  | IsString, _ => false
  | MinLength min _, Some (JString s) => (min <=? String.length s)%nat
  | MinLength _ _, _ => false
  | IsOptional, _ => true
  end.

Definition is_optional (d : Decorator) : bool :=
  match d with IsOptional => true | _ => false end.

(** [IsOptional] skips every validator of the property when the value is
    [null] or [undefined]. *)
Definition missing (value : option json) : bool :=
  match value with
  | None | Some JNull => true
  | Some _ => false
  end.

Inductive ValidationError :=
| Violates (name : string) (d : Decorator)
| ShouldNotExist (name : string).

(** The violated decorators of one property. *)
Definition property_errors (name : string) (decorators : list Decorator)
    (value : option json) : list ValidationError :=
  if existsb is_optional decorators && missing value then []
  else map (Violates name)
           (List.filter (fun d => negb (satisfies d value)) decorators).

(** [whitelist: true, forbidNonWhitelisted: true]: a property of the payload
    that the class does not declare is an error. *)
Definition declared (c : DtoClass) (name : string) : bool :=
  existsb (fun '(n, _) => String.eqb n name) c.

Definition whitelist_errors (c : DtoClass) (payload : list (string * json))
    : list ValidationError :=
  map (fun '(name, _) => ShouldNotExist name)
      (List.filter (fun '(name, _) => negb (declared c name)) payload).

(** All validation errors of a payload against a class. *)
Definition validate (c : DtoClass) (payload : list (string * json))
    : list ValidationError :=
  whitelist_errors c payload
  ++ flat_map (fun '(name, decorators) =>
                 property_errors name decorators (property name payload)) c.

(** [ValidationPipe]: a payload with an error is refused with a
    [BadRequestException], status 400; the handler runs otherwise. *)
Definition ValidationPipe (c : DtoClass) (payload : list (string * json))
    : PostsService.Outcome (list (string * json)) :=
  match validate c payload with
  | [] => PostsService.Returned payload
  | _ :: _ => PostsService.Thrown (PostsService.BadRequestException "Bad Request Exception")
  end.

End Validation.

(** ** The frontend HTTP client *)

Module ApiClient.

(** What the client reads of a fetch [Response]. *)
Record Response := mkResponse {
  status : Z;
  statusText : string;
  body : string
}.

(** [response.ok]: the status is in the range 200-299. *)
Definition ok (response : Response) : bool :=
  (200 <=? status response) && (status response <=? 299).

(** The normalized error record [{status, message, details}]. At run time
    [message] and [details] hold whatever the error body carried. *)
Record ApiError := mkApiError {
  error_status : Z;
  error_message : json;
  error_details : json
}.

(** The values a [catch (error)] of the client can receive. *)
Inductive Thrown :=
| ThrownRecord (e : ApiError)    (* an object with a [status] property *)
| ThrownError (message : string) (* an [Error] instance without [status] *)
| ThrownOther.                   (* any other value *)

(** How the awaited [fetch] ends: it rejects with a [TypeError] before any
    response exists, or resolves with the server's response. *)
Inductive FetchOutcome :=
| Rejects (message : string)
| Resolves (response : Response).

(** *** JavaScript value tests *)

Definition truthy (v : json) : bool :=
  match v with
  | JNull => false
  | JBool b => b
  | JNumber q => negb (Qeq_bool q 0)
  | JString s => negb (String.eqb s "")
  | JArray _ | JObject _ => true
  end.

(** [typeof v === 'object']. *)
Definition typeof_object (v : json) : bool :=
  match v with
  | JNull | JArray _ | JObject _ => true
  | _ => false
  end.

(** A named (non-index, non-[length]) property of a value that is not
    [null]: [Some] of it when present ([key in v]), [None] when [v.key] is
    [undefined]. *)
Definition named (key : string) (v : json) : option json :=
  match v with
  | JObject properties => property key properties
  | _ => None
  end.

(** [v.key]: a [TypeError] on [null] (outer [None]), the property or
    [undefined] otherwise. *)
Definition member (key : string) (v : json) : option (option json) :=
  match v with
  | JNull => None
  | _ => Some (named key v)
  end.

(** [a || b] with [a] possibly [undefined]. *)
Definition or_else (a : option json) (b : json) : json :=
  match a with
  | Some v => if truthy v then v else b
  | None => b
  end.

(** *** Exceptions inside the client *)

Definition E (A : Type) : Type := Thrown + A.

Definition eret {A} (a : A) : E A := inr a.
Definition ethrow {A} (t : Thrown) : E A := inl t.
Definition ebind {A B} (m : E A) (k : A -> E B) : E B :=
  match m with
  | inl t => inl t
  | inr a => k a
  end.

(** [try { m } catch (error) { throw handler(error) }]. *)
Definition try_rethrow {A} (m : E A) (handler : Thrown -> ApiError) : ApiError + A :=
  match m with
  | inl error => inl (handler error)
  | inr a => inr a
  end.

Declare Scope api_scope.
Delimit Scope api_scope with api.
Notation "x <- c1 ;; c2" := (ebind c1 (fun x => c2))
  (at level 100, c1 at next level, right associativity) : api_scope.
Local Open Scope api_scope.

(** [await fetch(...)]. *)
Definition await_fetch (net : FetchOutcome) : E Response :=
  match net with
  | Rejects message => ethrow (ThrownError message)
  | Resolves response => eret response
  end.

Section client.
(** [JSON.parse], which [response.json()] applies to the body: the
    decoded value, or the message of the [SyntaxError]. *)
Variable JSON_parse : string -> string + json.

Definition parse (text : string) : E json :=
  match JSON_parse text with
  | inl message => ethrow (ThrownError message)
  | inr v => eret v
  end.

(** The envelope test shared, verbatim, by the five wrappers. *)
Definition unwrap (jsonResponse : json) : json :=
  if truthy jsonResponse && typeof_object jsonResponse then
    match named "data" jsonResponse with
    | Some data => data
    | None => jsonResponse
    end
  else jsonResponse.

Definition handleHttpError (response : Response) : ApiError :=
  let status := status response in
  let message := JString ("HTTP Error: " +:+ show status) in
  let details := JString "" in
  let caught :=
    {| error_status := status;
       error_message :=
         if String.eqb (statusText response) "" then message
         else JString (statusText response);
       error_details := details |} in
  match JSON_parse (body response) with
  | inl _ => caught
  | inr errorBody =>
      match member "message" errorBody, member "details" errorBody with
      | Some m, Some d =>
          {| error_status := status;
             error_message := or_else m message;
             error_details := or_else d (JString "") |}
      | _, _ => caught
      end
  end.

Definition handleRequestError (error : Thrown) : ApiError :=
  match error with
  | ThrownRecord e => e
  | ThrownError message =>
      {| error_status := 0;
         error_message :=
           JString (if String.eqb message "" then "Network error occurred"
                    else message);
         error_details := JString "Request failed due to network issues" |}
  | ThrownOther =>
      {| error_status := 0;
         error_message := JString "Unknown error occurred";
         error_details :=
           JString "An unexpected error happened during the request" |}
  end.

Definition get (net : FetchOutcome) : ApiError + json :=
  try_rethrow
    (response <- await_fetch net ;;
     if negb (ok response) then ethrow (ThrownRecord (handleHttpError response))
     else
       jsonResponse <- parse (body response) ;;
       eret (unwrap jsonResponse))
    handleRequestError.

Definition post (net : FetchOutcome) : ApiError + json :=
  try_rethrow
    (response <- await_fetch net ;;
     if negb (ok response) then ethrow (ThrownRecord (handleHttpError response))
     else
       jsonResponse <- parse (body response) ;;
       eret (unwrap jsonResponse))
    handleRequestError.

Definition put (net : FetchOutcome) : ApiError + json :=
  try_rethrow
    (response <- await_fetch net ;;
     if negb (ok response) then ethrow (ThrownRecord (handleHttpError response))
     else
       jsonResponse <- parse (body response) ;;
       eret (unwrap jsonResponse))
    handleRequestError.

Definition patch (net : FetchOutcome) : ApiError + json :=
  try_rethrow
    (response <- await_fetch net ;;
     if negb (ok response) then ethrow (ThrownRecord (handleHttpError response))
     else
       jsonResponse <- parse (body response) ;;
       eret (unwrap jsonResponse))
    handleRequestError.

(** [delete]: an empty body yields [{}] without decoding. *)
Definition delete (net : FetchOutcome) : ApiError + json :=
  try_rethrow
    (response <- await_fetch net ;;
     if negb (ok response) then ethrow (ThrownRecord (handleHttpError response))
     else
       let text := body response in
       if String.eqb text "" then eret (JObject [])
       else
         jsonResponse <- parse text ;;
         eret (unwrap jsonResponse))
    handleRequestError.
End client.

(** The envelope rule in the specification's words: the value of the
    [data] field when the decoded body is an object containing a [data] key,
    the decoded body itself otherwise. *)
Definition envelope_payload (decoded : json) : json :=
  match decoded with
  | JObject properties =>
      match property "data" properties with
      | Some data => data
      | None => decoded
      end
  | _ => decoded
  end.

(** The call rejects with an error record of the given status. *)
Definition fails_with_status (result : ApiError + json) (n : Z) : Prop :=
  exists e, result = inl e /\ error_status e = n.

(** The five wrappers over one decoder. *)
Definition wrappers (JSON_parse : string -> string + json)
    : list (FetchOutcome -> ApiError + json) :=
  [get JSON_parse; post JSON_parse; put JSON_parse; patch JSON_parse;
   delete JSON_parse].

(** A small decoder for concrete runs: it knows five texts and refuses
    every other one, the empty text among them. *)
Definition DQ : string := String (Ascii.ascii_of_nat 34) EmptyString.

Definition sample_JSON_parse (text : string) : string + json :=
  if String.eqb text "" then inl "Unexpected end of JSON input"
  else if String.eqb text "null" then inr JNull
  else if String.eqb text "[]" then inr (JArray [])
  else if String.eqb text "{}" then inr (JObject [])
  else if String.eqb text ("{" +:+ DQ +:+ "data" +:+ DQ +:+ ":[]}")
       then inr (JObject [("data", JArray [])])
  else if String.eqb text ("{" +:+ DQ +:+ "message" +:+ DQ +:+ ":" +:+ DQ
                           +:+ "Post with ID 99 not found" +:+ DQ +:+ "}")
       then inr (JObject [("message", JString "Post with ID 99 not found")])
  else inl "Unexpected token".

End ApiClient.

(** ** Bookkeeping over histories of the post store *)

Module PostsHistory.
Import PostsService.

Definition is_create (op : Op) : bool :=
  match op with OpCreate _ => true | _ => false end.

Definition is_remove (op : Op) : bool :=
  match op with OpRemove _ => true | _ => false end.

(** How many calls of the selected kind return (do not throw) along a
    history run from [s]. *)
Fixpoint returned_calls (sel : Op -> bool) (usersService_exists : Z -> bool)
    (ops : list Op) (s : State) : Z :=
  match ops with
  | [] => 0
  | op :: ops' =>
      (if sel op && succeeds usersService_exists s op then 1 else 0)
      + returned_calls sel usersService_exists ops' (exec usersService_exists s op)
  end.


End PostsHistory.

(** ** JavaScript string helpers *)

(** A string is read as its sequence of characters with codes below 256;
    the message literals of the frontend are written out in UTF-8 and are
    only ever compared or searched for ASCII digits. *)
Module JsString.

(** The white space and line terminators that [trim] strips, among the
    characters below 256: tab, line feed, vertical tab, form feed, carriage
    return, space and no-break space. *)
Definition is_space (c : Ascii.ascii) : bool :=
  let n := Ascii.nat_of_ascii c in
  ((9 <=? n)%nat && (n <=? 13)%nat) || (n =? 32)%nat || (n =? 160)%nat.

Fixpoint trimStart (s : string) : string :=
  match s with
  | EmptyString => EmptyString
  | String c s' => if is_space c then trimStart s' else s
  end.

Fixpoint trimEnd (s : string) : string :=
  match s with
  | EmptyString => EmptyString
  | String c s' =>
      match trimEnd s' with
      | EmptyString => if is_space c then EmptyString else String c EmptyString
      | t => String c t
      end
  end.

(** [s.trim()]. *)
Definition trim (s : string) : string := trimEnd (trimStart s).

(** [hay.includes(needle)]. *)
Fixpoint includes (needle hay : string) : bool :=
  String.prefix needle hay
  || match hay with
     | EmptyString => false
     | String _ hay' => includes needle hay'
     end.

End JsString.

(** ** The rest of [api.ts] and the requests of the client *)

Module ApiTransport.
Import ApiClient.

(** What a [catch (error)] above the client can receive: an [Error]
    instance with its message, or the record the client rejects with. *)
Inductive Caught :=
| CaughtError (message : string)
| CaughtApiError (e : ApiError).

(** [validateApiResponse]: [null] (or [undefined]) data is an [Error]. *)
Definition validateApiResponse (data : json) : Caught + json :=
  match data with
  | JNull => inl (CaughtError "API returned null or undefined data")
  | _ => inr data
  end.

(** The arguments the client passes to [fetch]. *)
Record Request := mkRequest {
  method : string;
  url : string;
  requestBody : option json
}.

Section transport.
Variable JSON_parse : string -> string + json.
(** The client's [baseURL] field. *)
Variable baseURL : string.
(** The network: how the awaited [fetch] of a request ends. *)
Variable fetch : Request -> FetchOutcome.

(** The wrappers with their arguments: each builds its request from the
    endpoint (and the data), awaits [fetch] and goes on as in [ApiClient]. *)
Definition apiClient_get (endpoint : string) : ApiError + json :=
  get JSON_parse (fetch (mkRequest "GET" (baseURL +:+ endpoint) None)).

Definition apiClient_post (endpoint : string) (data : json) : ApiError + json :=
  post JSON_parse (fetch (mkRequest "POST" (baseURL +:+ endpoint) (Some data))).

Definition apiClient_put (endpoint : string) (data : json) : ApiError + json :=
  put JSON_parse (fetch (mkRequest "PUT" (baseURL +:+ endpoint) (Some data))).

Definition apiClient_patch (endpoint : string) (data : json) : ApiError + json :=
  patch JSON_parse (fetch (mkRequest "PATCH" (baseURL +:+ endpoint) (Some data))).

Definition apiClient_delete (endpoint : string) : ApiError + json :=
  delete JSON_parse (fetch (mkRequest "DELETE" (baseURL +:+ endpoint) None)).
End transport.

(** The rejection of a wrapper as the caller's [catch] sees it. *)
Definition awaited (result : ApiError + json) : Caught + json :=
  match result with
  | inl e => inl (CaughtApiError e)
  | inr v => inr v
  end.

End ApiTransport.

(** ** The frontend post service ([services/postService.ts]) *)

Module PostService.
Import ApiClient ApiTransport JsString.

(** [CreatePostRequest] and [Partial<CreatePostRequest>]. *)
Record CreatePostRequest := mkCreatePostRequest {
  req_userId : Z;
  req_title : string;
  req_body : string
}.

Record PartialPostRequest := mkPartialPostRequest {
  part_userId : option Z;
  part_title : option string;
  part_body : option string
}.

(** The JSON text of a value is identified with the value it decodes to. *)
Definition number (n : Z) : json := JNumber (inject_Z n).

Definition present {A : Type} (key : string) (to_json : A -> json) (value : option A)
    : list (string * json) :=
  match value with
  | Some a => [(key, to_json a)]
  | None => []
  end.

(** [JSON.stringify(postData)] for a [CreatePostRequest]. *)
Definition createBody (postData : CreatePostRequest) : json :=
  JObject [("userId", number (req_userId postData));
           ("title", JString (req_title postData));
           ("body", JString (req_body postData))].

(** [JSON.stringify({ id, ...postData })]. *)
Definition updatePayload (id : Z) (postData : PartialPostRequest) : json :=
  JObject (("id", number id)
           :: present "userId" number (part_userId postData)
           ++ present "title" JString (part_title postData)
           ++ present "body" JString (part_body postData)).

(** *** [try] blocks of the service *)

Definition pure {A : Type} (a : A) : Caught + A := inr a.

Definition andThen {A B : Type} (m : Caught + A) (k : A -> Caught + B) : Caught + B :=
  match m with
  | inl error => inl error
  | inr a => k a
  end.

(** [if (cond) { throw new Error(message) }]. *)
Definition throwIf (cond : bool) (message : string) : Caught + unit :=
  if cond then inl (CaughtError message) else inr tt.

(** [try { m } catch (error) { throw new Error(handler(error)) }]: the
    message of the [Error] the call rejects with, or the value it returns.
    The [console.error] of each handler is left out. *)
Definition try_catch {A : Type} (m : Caught + A) (handler : Caught -> string)
    : string + A :=
  match m with
  | inl error => inl (handler error)
  | inr a => inr a
  end.

(** [error instanceof Error && error.message.includes(needle)]. *)
Definition Error_includes (needle : string) (error : Caught) : bool :=
  match error with
  | CaughtError message => includes needle message
  | CaughtApiError _ => false
  end.

(** [if (error instanceof Error) throw error; throw new Error(fallback)]. *)
Definition rethrow_Error (fallback : string) (error : Caught) : string :=
  match error with
  | CaughtError message => message
  | CaughtApiError _ => fallback
  end.

Declare Scope service_scope.
Delimit Scope service_scope with service.
Notation "x <- c1 ;; c2" := (andThen c1 (fun x => c2))
  (at level 100, c1 at next level, right associativity) : service_scope.
Notation "c1 ;;; c2" := (andThen c1 (fun _ => c2))
  (at level 100, right associativity) : service_scope.
Local Open Scope service_scope.

(** [!id || id <= 0]. *)
Definition invalid_id (id : Z) : bool := (id =? 0) || (id <=? 0).

(** [!s?.trim()]: the trimmed string is empty. *)
Definition blank (s : string) : bool := String.eqb (trim s) "".

(** [s.trim().length < n]. *)
Definition trimmed_shorter (s : string) (n : nat) : bool :=
  (String.length (trim s) <? n)%nat.

Section service.
Variable JSON_parse : string -> string + json.
Variable baseURL : string.
Variable fetch : Request -> FetchOutcome.

Definition getAllPosts : string + json :=
  try_catch
    (posts <- awaited (apiClient_get JSON_parse baseURL fetch "/posts") ;;
     validateApiResponse posts)
    (fun _ => "Gönderiler yüklenirken bir hata oluştu. Lütfen tekrar deneyin.").

Definition getPostById (id : Z) : string + json :=
  try_catch
    (throwIf (invalid_id id) "Geçerli bir gönderi ID'si gerekli" ;;;
     post <- awaited (apiClient_get JSON_parse baseURL fetch ("/posts/" +:+ show id)) ;;
     validateApiResponse post)
    (fun error =>
       if Error_includes "404" error then show id +:+ " ID'li gönderi bulunamadı"
       else "Gönderi yüklenirken bir hata oluştu").

Definition getPostsByUserId (userId : Z) : string + json :=
  try_catch
    (throwIf (invalid_id userId) "Geçerli bir kullanıcı ID'si gerekli" ;;;
     posts <- awaited (apiClient_get JSON_parse baseURL fetch
                         ("/posts?userId=" +:+ show userId)) ;;
     validateApiResponse posts)
    (fun _ => show userId +:+ " ID'li kullanıcının gönderileri yüklenirken bir hata oluştu").

Definition createPost (postData : CreatePostRequest) : string + json :=
  try_catch
    (throwIf (invalid_id (req_userId postData)) "Geçerli bir kullanıcı ID'si seçiniz" ;;;
     throwIf (blank (req_title postData)) "Gönderi başlığı zorunludur" ;;;
     throwIf (trimmed_shorter (req_title postData) 5)
             "Gönderi başlığı en az 5 karakter olmalıdır" ;;;
     throwIf (blank (req_body postData)) "Gönderi içeriği zorunludur" ;;;
     throwIf (trimmed_shorter (req_body postData) 10)
             "Gönderi içeriği en az 10 karakter olmalıdır" ;;;
     newPost <- awaited (apiClient_post JSON_parse baseURL fetch "/posts"
                           (createBody postData)) ;;
     validateApiResponse newPost)
    (rethrow_Error "Gönderi oluşturulurken bir hata oluştu").

(** [Object.values(postData).some(...)]: a number counts when positive, a
    string when not blank. *)
Definition hasValidData (postData : PartialPostRequest) : bool :=
  match part_userId postData with Some n => 0 <? n | None => false end
  || match part_title postData with Some t => negb (blank t) | None => false end
  || match part_body postData with Some b => negb (blank b) | None => false end.

Definition updatePost (id : Z) (postData : PartialPostRequest) : string + json :=
  try_catch
    (throwIf (invalid_id id) "Geçerli bir gönderi ID'si gerekli" ;;;
     throwIf (negb (hasValidData postData))
             "Güncellenecek en az bir alan doldurulmalıdır" ;;;
     match part_title postData with
     | Some title =>
         throwIf (blank title) "Gönderi başlığı boş olamaz" ;;;
         throwIf (trimmed_shorter title 5) "Gönderi başlığı en az 5 karakter olmalıdır"
     | None => pure tt
     end ;;;
     match part_body postData with
     | Some body =>
         throwIf (blank body) "Gönderi içeriği boş olamaz" ;;;
         throwIf (trimmed_shorter body 10) "Gönderi içeriği en az 10 karakter olmalıdır"
     | None => pure tt
     end ;;;
     match part_userId postData with
     | Some userId => throwIf (invalid_id userId) "Geçerli bir kullanıcı ID'si seçiniz"
     | None => pure tt
     end ;;;
     updatedPost <- awaited (apiClient_patch JSON_parse baseURL fetch
                               ("/posts/" +:+ show id) (updatePayload id postData)) ;;
     validateApiResponse updatedPost)
    (rethrow_Error "Gönderi güncellenirken bir hata oluştu").

Definition deletePost (id : Z) : string + unit :=
  try_catch
    (throwIf (invalid_id id) "Geçerli bir gönderi ID'si gerekli" ;;;
     _ <- awaited (apiClient_delete JSON_parse baseURL fetch ("/posts/" +:+ show id)) ;;
     pure tt)
    (fun error =>
       if Error_includes "404" error then show id +:+ " ID'li gönderi bulunamadı"
       else "Gönderi silinirken bir hata oluştu").
End service.

(** The reducer of [getPostCountByUser], over posts as the cast
    [Post[]] reads them (the frontend [Post] has the backend's four
    properties): [counts[post.userId] = (counts[post.userId] || 0) + 1]. *)
Definition countByUser (posts : list PostsService.Post) : gmap Z Z :=
  foldl (fun counts post =>
           <[PostsService.post_userId post :=
               default 0 (counts !! PostsService.post_userId post) + 1]> counts)
        ∅ posts.

(** [validatePostData]: the messages of all violated rules, in order. *)
Definition validatePostData (postData : PartialPostRequest) : list string :=
  (match part_userId postData with
   | Some userId => if invalid_id userId then ["Geçerli bir kullanıcı seçiniz"] else []
   | None => []
   end)
  ++ (match part_title postData with
      | Some title => if blank title then ["Başlık alanı boş olamaz"] else []
      | None => []
      end)
  ++ (match part_title postData with
      | Some title =>
          if negb (String.eqb title "") && trimmed_shorter title 5
          then ["Başlık en az 5 karakter olmalıdır"] else []
      | None => []
      end)
  ++ (match part_title postData with
      | Some title =>
          if negb (String.eqb title "") && (100 <? String.length title)%nat
          then ["Başlık en fazla 100 karakter olabilir"] else []
      | None => []
      end)
  ++ (match part_body postData with
      | Some body => if blank body then ["İçerik alanı boş olamaz"] else []
      | None => []
      end)
  ++ (match part_body postData with
      | Some body =>
          if negb (String.eqb body "") && trimmed_shorter body 10
          then ["İçerik en az 10 karakter olmalıdır"] else []
      | None => []
      end)
  ++ (match part_body postData with
      | Some body =>
          if negb (String.eqb body "") && (1000 <? String.length body)%nat
          then ["İçerik en fazla 1000 karakter olabilir"] else []
      | None => []
      end).

End PostService.

(** ** The error messages shown to the user ([handleApiError]) *)

Module Helpers.
Import ApiClient.

(** [handleApiError]: the text for a caught value. For a record the status
    selects a fixed text; any other status shows the record's own message
    when it is truthy. *)
Definition handleApiError (error : Thrown) : json :=
  match error with
  | ThrownRecord apiError =>
      if error_status apiError =? 400
      then JString "Gönderilen bilgiler hatalı. Lütfen kontrol ediniz."
      else if error_status apiError =? 401
      then JString "Yetkiniz bulunmuyor. Lütfen giriş yapınız."
      else if error_status apiError =? 403
      then JString "Bu işlemi gerçekleştirme izniniz yok."
      else if error_status apiError =? 404
      then JString "Aranan kaynak bulunamadı."
      else if error_status apiError =? 500
      then JString "Sunucu hatası oluştu. Lütfen daha sonra tekrar deneyiniz."
      else if error_status apiError =? 0
      then JString "Ağ bağlantısı hatası. İnternet bağlantınızı kontrol ediniz."
      else or_else (Some (error_message apiError)) (JString "Bilinmeyen bir hata oluştu")
  | ThrownError message => JString message
  | ThrownOther => JString "Beklenmeyen bir hata oluştu"
  end.

End Helpers.

(** The properties of a decoded object (none for any other value). *)
Definition object_properties (v : json) : list (string * json) :=
  match v with
  | JObject properties => properties
  | _ => []
  end.

(** ** Regular expressions of the frontend *)

(** The patterns of the frontend are anchored at both ends and use only
    character classes, sequence and [+]; for such a pattern
    [RegExp.prototype.test] decides membership of the whole string in the
    pattern's language, which [test] below computes by derivatives. *)
Module Regex.

Inductive regex :=
| Never
| Empty
| Class (p : Ascii.ascii -> bool)
| Seq (r1 r2 : regex)
| Alt (r1 r2 : regex)
| Star (r : regex).

(** [r+]. *)
Definition Plus (r : regex) : regex := Seq r (Star r).

(** A literal character. *)
Definition Char (c : Ascii.ascii) : regex := Class (Ascii.eqb c).

Fixpoint nullable (r : regex) : bool :=
  match r with
  | Never => false
  | Empty => true
  | Class _ => false
  | Seq r1 r2 => nullable r1 && nullable r2
  | Alt r1 r2 => nullable r1 || nullable r2
  | Star _ => true
  end.

Fixpoint deriv (c : Ascii.ascii) (r : regex) : regex :=
  match r with
  | Never => Never
  | Empty => Never
  | Class p => if p c then Empty else Never
  | Seq r1 r2 =>
      if nullable r1 then Alt (Seq (deriv c r1) r2) (deriv c r2)
      else Seq (deriv c r1) r2
  | Alt r1 r2 => Alt (deriv c r1) (deriv c r2)
  | Star r1 => Seq (deriv c r1) (Star r1)
  end.

(** [/^r$/.test(s)]. *)
Fixpoint test (r : regex) (s : string) : bool :=
  match s with
  | EmptyString => nullable r
  | String c s' => test (deriv c r) s'
  end.

(** The language of a pattern. *)
Inductive Matches : regex -> string -> Prop :=
| MEmpty : Matches Empty EmptyString
| MClass p c : p c = true -> Matches (Class p) (String c EmptyString)
| MSeq r1 r2 s1 s2 : Matches r1 s1 -> Matches r2 s2 -> Matches (Seq r1 r2) (s1 +:+ s2)
| MAltL r1 r2 s : Matches r1 s -> Matches (Alt r1 r2) s
| MAltR r1 r2 s : Matches r2 s -> Matches (Alt r1 r2) s
| MStarNil r : Matches (Star r) EmptyString
| MStarApp r s1 s2 :
    Matches r s1 -> Matches (Star r) s2 -> Matches (Star r) (s1 +:+ s2).

(** [[^\s@]]: neither white space nor the at sign. *)
Definition notSpaceAt (c : Ascii.ascii) : bool :=
  negb (JsString.is_space c) && negb (Ascii.eqb c "@"%char).

(** [/^[^\s@]+@[^\s@]+\.[^\s@]+$/]. *)
Definition emailRegex : regex :=
  Seq (Plus (Class notSpaceAt))
      (Seq (Char "@"%char)
           (Seq (Plus (Class notSpaceAt))
                (Seq (Char "."%char) (Plus (Class notSpaceAt))))).

(** Every character of the string satisfies the test. *)
Fixpoint all_chars (p : Ascii.ascii -> bool) (s : string) : bool :=
  match s with
  | EmptyString => true
  | String c s' => p c && all_chars p s'
  end.

End Regex.

(** ** Form helpers and the user service *)

Module FormHelpers.
Import JsString Regex.

(** [validateEmail]. *)
Definition validateEmail (email : string) : bool := test emailRegex (trim email).

(** [validateUsername]. *)
Definition validateUsername (username : string) : bool :=
  let trimmedUsername := trim username in
  (3 <=? String.length trimmedUsername)%nat && (String.length trimmedUsername <=? 20)%nat.

(** [text.substring(0, n)]: a negative [n] counts as 0 and one beyond the
    length as the length. *)
Definition substring0 (text : string) (n : Z) : string :=
  String.substring 0 (Z.to_nat n) text.

(** [truncateText]. *)
Definition truncateText (text : string) (maxLength : Z) : string :=
  if Z.of_nat (String.length text) <=? maxLength then text
  else substring0 text (maxLength - 3) +:+ "...".

End FormHelpers.

Module UserService.
Import ApiClient ApiTransport JsString Regex PostService.

(** [CreateUserRequest]. *)
Record CreateUserRequest := mkCreateUserRequest {
  user_name : string;
  user_username : string;
  user_email : string;
  user_phone : option string;
  user_website : option string
}.

(** [Partial<CreateUserRequest>] as [validateUserData] reads it. *)
Record PartialUserRequest := mkPartialUserRequest {
  part_name : option string;
  part_username : option string;
  part_email : option string
}.

(** [JSON.stringify(userData)]. *)
Definition createBody (userData : CreateUserRequest) : json :=
  JObject ([("name", JString (user_name userData));
            ("username", JString (user_username userData));
            ("email", JString (user_email userData))]
           ++ present "phone" JString (user_phone userData)
           ++ present "website" JString (user_website userData)).

Local Open Scope service_scope.

Section service.
Variable JSON_parse : string -> string + json.
Variable baseURL : string.
Variable fetch : Request -> FetchOutcome.

Definition createUser (userData : CreateUserRequest) : string + json :=
  try_catch
    (throwIf (blank (user_name userData)) "Kullanıcı adı zorunludur" ;;;
     throwIf (blank (user_username userData)) "Kullanıcı nickname'i zorunludur" ;;;
     throwIf (blank (user_email userData)) "E-posta adresi zorunludur" ;;;
     throwIf (negb (test emailRegex (user_email userData)))
             "Geçerli bir e-posta adresi giriniz" ;;;
     newUser <- awaited (apiClient_post JSON_parse baseURL fetch "/users"
                           (createBody userData)) ;;
     validateApiResponse newUser)
    (rethrow_Error "Kullanıcı oluşturulurken bir hata oluştu").
End service.

(** [validateUserData]: the messages of all violated rules, in order. *)
Definition validateUserData (userData : PartialUserRequest) : list string :=
  (match part_name userData with
   | Some name => if blank name then ["Ad alanı boş olamaz"] else []
   | None => []
   end)
  ++ (match part_username userData with
      | Some username => if blank username then ["Kullanıcı adı boş olamaz"] else []
      | None => []
      end)
  ++ (match part_username userData with
      | Some username =>
          if negb (String.eqb username "") && (String.length username <? 3)%nat
          then ["Kullanıcı adı en az 3 karakter olmalıdır"] else []
      | None => []
      end)
  ++ (match part_email userData with
      | Some email => if blank email then ["E-posta adresi boş olamaz"] else []
      | None => []
      end)
  ++ (match part_email userData with
      | Some email =>
          if negb (String.eqb email "") && negb (blank email)
             && negb (test emailRegex email)
          then ["Geçerli bir e-posta adresi giriniz"] else []
      | None => []
      end).

End UserService.

(** * Properties *)

(** ** Array helpers *)

Section js_array_facts.
Context {A : Type} (f : A -> bool).

(** [findIndex] either finds nothing, or splits the array at the first
    element that satisfies the test. *)
Lemma findIndex_from_cases (l : list A) (i : Z) :
  0 <= i ->
  (findIndex_from f l i = -1 /\ Forall (fun x => f x = false) l)
  \/ (exists l1 x l2,
        l = l1 ++ x :: l2 /\ Forall (fun y => f y = false) l1 /\ f x = true
        /\ findIndex_from f l i = i + Z.of_nat (length l1)).
Proof.
  revert i. induction l as [|a l IH]; intros i Hi; simpl.
  - left. split; [reflexivity | constructor].
  - destruct (f a) eqn:Ha.
    + right. exists [], a, l. simpl. repeat split; auto. lia.
    + destruct (IH (i + 1)) as [[E H] | (l1 & x & l2 & -> & H1 & Hx & E)]; [lia | |].
      * left. split; [exact E | constructor; assumption].
      * right. exists (a :: l1), x, l2. simpl. repeat split; auto.
        rewrite E. lia.
Qed.

Lemma findIndex_cases (l : list A) :
  (findIndex f l = -1 /\ Forall (fun x => f x = false) l)
  \/ (exists l1 x l2,
        l = l1 ++ x :: l2 /\ Forall (fun y => f y = false) l1 /\ f x = true
        /\ findIndex f l = Z.of_nat (length l1)).
Proof.
  unfold findIndex.
  destruct (findIndex_from_cases l 0) as [H | (l1 & x & l2 & H)]; [lia | left; exact H |].
  right. exists l1, x, l2. rewrite Z.add_0_l in H. exact H.
Qed.

(** After the -1 test the index is in range and names a match. *)
Lemma findIndex_lookup (l : list A) :
  findIndex f l <> -1 ->
  exists x, l !! Z.to_nat (findIndex f l) = Some x /\ f x = true.
Proof.
  destruct (findIndex_cases l) as [[E _] | (l1 & x & l2 & -> & _ & Hx & E)]; [congruence |].
  intros _. exists x. split; [| exact Hx].
  rewrite E, Nat2Z.id. apply list_lookup_middle. reflexivity.
Qed.

Lemma find_cases (l : list A) :
  (find f l = None /\ Forall (fun x => f x = false) l)
  \/ (exists l1 x l2,
        l = l1 ++ x :: l2 /\ Forall (fun y => f y = false) l1 /\ f x = true
        /\ find f l = Some x).
Proof.
  induction l as [|a l IH]; simpl.
  - left. split; [reflexivity | constructor].
  - destruct (f a) eqn:Ha.
    + right. exists [], a, l. simpl. repeat split; auto.
    + destruct IH as [[E H] | (l1 & x & l2 & -> & H1 & Hx & E)].
      * left. split; [exact E | constructor; assumption].
      * right. exists (a :: l1), x, l2. simpl. repeat split; auto.
Qed.

Lemma assign_middle (l1 l2 : list A) (x y : A) :
  assign (Z.of_nat (length l1)) y (l1 ++ x :: l2) = l1 ++ y :: l2.
Proof.
  unfold assign. rewrite Nat2Z.id.
  rewrite insert_app_r_alt by lia. rewrite Nat.sub_diag. reflexivity.
Qed.

Lemma splice1_middle (l1 l2 : list A) (x : A) :
  splice1 (Z.of_nat (length l1)) (l1 ++ x :: l2) = l1 ++ l2.
Proof.
  unfold splice1. rewrite Nat2Z.id. apply delete_middle.
Qed.
End js_array_facts.

(** ** The post store *)

Module PostsFacts.
Import PostsService.

Lemma id_test_false (id : Z) (l : list Post) :
  Forall (fun post => (post_id post =? id) = false) l <-> id ∉ map post_id l.
Proof.
  rewrite Forall_forall, list_elem_of_fmap. split.
  - intros H (p & -> & Hp). apply H in Hp. lia.
  - intros H p Hp. apply Z.eqb_neq. intros E. apply H. exists p. auto.
Qed.

Section facts.
Variable usersService_exists : Z -> bool.
Abbreviation create := (create usersService_exists).
Abbreviation update := (update usersService_exists).
Abbreviation userId_refused := (userId_refused usersService_exists).
Abbreviation exec := (exec usersService_exists).
Abbreviation run := (run usersService_exists).

(** *** What each method does, case by case *)

Lemma create_cases (dto : CreatePostDto) (s : State) :
  (usersService_exists (create_userId dto) = false
   /\ create dto s
      = (Thrown (BadRequestException
                   ("User with ID " +:+ show (create_userId dto) +:+ " not found")), s))
  \/ (usersService_exists (create_userId dto) = true
      /\ let newPost := mkPost (nextId s) (create_userId dto)
                               (create_title dto) (create_body dto) in
         create dto s
         = (Returned newPost, mkState (posts s ++ [newPost]) (nextId s + 1))).
Proof.
  unfold PostsService.create.
  destruct (usersService_exists (create_userId dto)); simpl; [right | left]; auto.
Qed.

Lemma update_cases (id : Z) (dto : UpdatePostDto) (s : State) :
  ((id ∉ ids s)
   /\ update id dto s
      = (Thrown (NotFoundException ("Post with ID " +:+ show id +:+ " not found")), s))
  \/ (exists l1 x l2,
        posts s = l1 ++ x :: l2 /\ (id ∉ map post_id l1) /\ post_id x = id
        /\ ((exists userId,
               userId_refused dto = Some userId
               /\ update id dto s
                  = (Thrown (BadRequestException
                               ("User with ID " +:+ show userId +:+ " not found")), s))
            \/ (userId_refused dto = None
                /\ update id dto s
                   = (Returned (spread x dto),
                      mkState (l1 ++ spread x dto :: l2) (nextId s))))).
Proof.
  unfold PostsService.update, bind, this. simpl.
  destruct (findIndex_cases (fun post => post_id post =? id) (posts s))
    as [[E H] | (l1 & x & l2 & Hs & H1 & Hx & E)].
  - left. rewrite E. simpl. split; [| reflexivity]. apply id_test_false, H.
  - right. exists l1, x, l2. apply id_test_false in H1. apply Z.eqb_eq in Hx.
    repeat split; auto. rewrite E.
    replace (Z.of_nat (length l1) =? -1) with false by (symmetry; apply Z.eqb_neq; lia).
    destruct (userId_refused dto) as [userId|] eqn:Hr.
    + left. exists userId. auto.
    + right. split; [reflexivity |].
      rewrite Hs, Nat2Z.id, list_lookup_middle by reflexivity.
      cbv beta iota zeta. rewrite assign_middle. reflexivity.
Qed.

Lemma remove_cases (id : Z) (s : State) :
  ((id ∉ ids s)
   /\ remove id s
      = (Thrown (NotFoundException ("Post with ID " +:+ show id +:+ " not found")), s))
  \/ (exists l1 x l2,
        posts s = l1 ++ x :: l2 /\ (id ∉ map post_id l1) /\ post_id x = id
        /\ remove id s = (Returned tt, mkState (l1 ++ l2) (nextId s))).
Proof.
  unfold PostsService.remove, bind, this. simpl.
  destruct (findIndex_cases (fun post => post_id post =? id) (posts s))
    as [[E H] | (l1 & x & l2 & Hs & H1 & Hx & E)].
  - left. rewrite E. simpl. split; [| reflexivity]. apply id_test_false, H.
  - right. exists l1, x, l2. apply id_test_false in H1. apply Z.eqb_eq in Hx.
    repeat split; auto. rewrite E.
    replace (Z.of_nat (length l1) =? -1) with false by (symmetry; apply Z.eqb_neq; lia).
    unfold set_posts. simpl. rewrite Hs, splice1_middle. reflexivity.
Qed.

Lemma findOne_cases (id : Z) (s : State) :
  ((id ∉ ids s)
   /\ findOne id s
      = (Thrown (NotFoundException ("Post with ID " +:+ show id +:+ " not found")), s))
  \/ (exists l1 x l2,
        posts s = l1 ++ x :: l2 /\ (id ∉ map post_id l1) /\ post_id x = id
        /\ findOne id s = (Returned x, s)).
Proof.
  unfold PostsService.findOne, bind, this. simpl.
  destruct (find_cases (fun post => post_id post =? id) (posts s))
    as [[E H] | (l1 & x & l2 & Hs & H1 & Hx & E)].
  - left. rewrite E. split; [| reflexivity]. apply id_test_false, H.
  - right. exists l1, x, l2. apply id_test_false in H1. apply Z.eqb_eq in Hx.
    rewrite E. repeat split; auto.
Qed.

(** The guard of [update] refuses exactly the non-zero identifiers the
    user store does not know. *)
Lemma userId_refused_Some (dto : UpdatePostDto) (userId : Z) :
  userId_refused dto = Some userId
  <-> update_userId dto = Some userId /\ userId <> 0
      /\ usersService_exists userId = false.
Proof.
  unfold PostsService.userId_refused, truthy.
  destruct (update_userId dto) as [u|]; [| split; [discriminate | intros [? _]; discriminate]].
  destruct (Z.eqb_spec u 0) as [->|Hu]; simpl.
  - split; [discriminate | intros (E & Hn & _); congruence].
  - destruct (usersService_exists u) eqn:Hex; simpl.
    + split; [discriminate | intros (E & _ & Hf); congruence].
    + split; [intros E; inversion E; subst; auto | intros (E & _); congruence].
Qed.
End facts.

End PostsFacts.

Module PostsClaims.
Import PostsService PostsFacts.

Section invariants.
Variable usersService_exists : Z -> bool.
Abbreviation create := (create usersService_exists).
Abbreviation update := (update usersService_exists).
Abbreviation exec := (exec usersService_exists).
Abbreviation run := (run usersService_exists).

Lemma spread_keeps_id (x : Post) (id : Z) (dto : UpdatePostDto) :
  post_id x = id -> keeps_id (OpUpdate id dto) -> post_id (spread x dto) = post_id x.
Proof.
  intros Hx [H | H]; simpl; rewrite H; simpl; congruence.
Qed.

(** What one call does to the list of identifiers and to the counter. *)
Lemma exec_ids (s : State) (op : Op) :
  keeps_id op ->
  match op with
  | OpCreate _ =>
      exec s op = s
      \/ (ids (exec s op) = ids s ++ [nextId s] /\ nextId (exec s op) = nextId s + 1)
  | OpUpdate _ _ =>
      ids (exec s op) = ids s /\ nextId (exec s op) = nextId s
  | OpRemove id =>
      exec s op = s
      \/ (exists l1 l2, ids s = l1 ++ id :: l2 /\ ids (exec s op) = l1 ++ l2
                        /\ nextId (exec s op) = nextId s)
  end.
Proof.
  intros Hk. destruct op as [dto | id dto | id]; simpl.
  - destruct (create_cases usersService_exists dto s) as [[_ E] | [_ E]];
      simpl in E; rewrite E; simpl; [left; reflexivity | right].
    unfold ids. simpl. rewrite map_app. auto.
  - destruct (update_cases usersService_exists id dto s)
      as [[_ E] | (l1 & x & l2 & Hs & _ & Hx & [(u & _ & E) | [_ E]])];
      rewrite E; cbn [snd]; auto.
    unfold ids. cbn [posts nextId]. rewrite Hs, !map_app, !map_cons.
    rewrite (spread_keeps_id x id dto Hx Hk). auto.
  - destruct (remove_cases id s) as [[_ E] | (l1 & x & l2 & Hs & _ & Hx & E)];
      rewrite E; simpl; [left; reflexivity | right].
    exists (map post_id l1), (map post_id l2). unfold ids. simpl.
    rewrite Hs, !map_app. simpl. rewrite Hx. auto.
Qed.

Lemma exec_ids_wf (s : State) (op : Op) :
  keeps_id op -> ids_wf s -> ids_wf (exec s op).
Proof.
  intros Hk [Hnd Hlt]. pose proof (exec_ids s op Hk) as H.
  destruct op as [dto | id dto | id].
  - destruct H as [-> | [Hi Hn]]; [split; assumption |].
    unfold ids_wf. rewrite Hi, Hn. split.
    + apply NoDup_app. repeat split; [assumption | | apply NoDup_singleton].
      intros i Hin Hin'. apply list_elem_of_singleton in Hin'. subst i.
      rewrite Forall_forall in Hlt. apply Hlt in Hin. lia.
    + apply Forall_app. split.
      * eapply Forall_impl; [exact Hlt |]. simpl. intros. lia.
      * repeat constructor. lia.
  - destruct H as [Hi Hn]. unfold ids_wf. rewrite Hi, Hn. split; assumption.
  - destruct H as [-> | (l1 & l2 & Hs & Hi & Hn)]; [split; assumption |].
    unfold ids_wf. rewrite Hi, Hn. rewrite Hs in Hnd, Hlt. split.
    + apply NoDup_app in Hnd as (H1 & H2 & H3). apply NoDup_cons in H3 as [_ H3].
      apply NoDup_app. repeat split; [assumption | | assumption].
      intros i Hin Hin'. apply (H2 i Hin). right. exact Hin'.
    + apply Forall_app in Hlt as [H1 H2]. apply Forall_cons in H2 as [_ H2].
      apply Forall_app. split; assumption.
Qed.

Lemma seeded_ids_wf : ids_wf seeded.
Proof.
  split.
  - apply (bool_decide_unpack _). vm_compute. exact I.
  - unfold ids. simpl. repeat constructor.
Qed.

Lemma run_ids_wf (ops : list Op) (s : State) :
  Forall keeps_id ops -> ids_wf s -> ids_wf (run ops s).
Proof.
  unfold PostsService.run. revert s.
  induction ops as [|op ops IH]; intros s Hk Hs; simpl; [exact Hs |].
  apply Forall_cons in Hk as [Hop Hk]. apply IH; [exact Hk |].
  apply exec_ids_wf; assumption.
Qed.
End invariants.

(** C1 (as amended). Starting from the seeded store, after every history of
    create, remove and update calls in which no update payload carries an
    [id] other than the addressed one, the stored identifiers are pairwise
    distinct and all below the counter; a successful create gives the new
    record the counter's value and advances the counter by one; and each
    such call leaves the identifiers of the records that stay unchanged. *)
Theorem ids_unique_without_foreign_id
    (usersService_exists : Z -> bool) (ops : list Op) :
  Forall keeps_id ops ->
  ids_wf (PostsService.run usersService_exists ops seeded)
  /\ (forall s dto,
        usersService_exists (create_userId dto) = true ->
        exists p s',
          PostsService.create usersService_exists dto s = (Returned p, s')
          /\ post_id p = nextId s /\ nextId s' = nextId s + 1
          /\ posts s' = posts s ++ [p])
  /\ (forall s op,
        keeps_id op ->
        let s' := PostsService.exec usersService_exists s op in
        match op with
        | OpCreate _ =>
            s' = s \/ (ids s' = ids s ++ [nextId s] /\ nextId s' = nextId s + 1)
        | OpUpdate _ _ => ids s' = ids s /\ nextId s' = nextId s
        | OpRemove id =>
            s' = s
            \/ (exists l1 l2, ids s = l1 ++ id :: l2 /\ ids s' = l1 ++ l2
                              /\ nextId s' = nextId s)
        end).
Proof.
  intros Hk. split; [| split].
  - apply run_ids_wf; [exact Hk | apply seeded_ids_wf].
  - intros s dto Hex.
    destruct (create_cases usersService_exists dto s) as [[Hf _] | [_ E]]; [congruence |].
    simpl in E. eexists _, _. split; [exact E |]. simpl. auto.
  - intros s op Hop. apply exec_ids, Hop.
Qed.

Lemma ids_unique_without_foreign_id_witness :
  Forall keeps_id
    [OpCreate (mkCreate 2 "A sixth post" "Some text for the body");
     OpUpdate 11 (mkUpdate None (Some "Another title") None (Some 11));
     OpRemove 3]
  /\ ids_wf (PostsService.run sample_exists
       [OpCreate (mkCreate 2 "A sixth post" "Some text for the body");
        OpUpdate 11 (mkUpdate None (Some "Another title") None (Some 11));
        OpRemove 3] seeded).
Proof.
  assert (H : Forall keeps_id
    [OpCreate (mkCreate 2 "A sixth post" "Some text for the body");
     OpUpdate 11 (mkUpdate None (Some "Another title") None (Some 11));
     OpRemove 3]).
  { constructor; [exact I |]. constructor; [right; reflexivity |].
    constructor; [exact I | constructor]. }
  split; [exact H |].
  exact (proj1 (ids_unique_without_foreign_id sample_exists _ H)).
Defined.

(** C1 (as stated) fails: an update whose payload carries [id: 1], addressed
    to post 2 of the seeded store, returns and leaves two posts with
    identifier 1. *)
Lemma update_payload_id_breaks_uniqueness :
  succeeds sample_exists seeded (OpUpdate 2 (mkUpdate None None None (Some 1))) = true
  /\ ids (PostsService.run sample_exists
            [OpUpdate 2 (mkUpdate None None None (Some 1))] seeded)
     = [1; 1; 3; 4; 5; 6; 7; 8; 9; 10]
  /\ ~ NoDup (ids (PostsService.run sample_exists
                     [OpUpdate 2 (mkUpdate None None None (Some 1))] seeded)).
Proof.
  assert (E : ids (PostsService.run sample_exists
                     [OpUpdate 2 (mkUpdate None None None (Some 1))] seeded)
              = [1; 1; 3; 4; 5; 6; 7; 8; 9; 10]) by reflexivity.
  split; [reflexivity |]. split; [exact E |]. rewrite E.
  intros H. apply NoDup_cons in H as [H _]. apply H. constructor.
Qed.

(** C2: the guard of [update] tests the payload's [userId] for truthiness,
    so [userId: 0] skips the user-store lookup. On the seeded store, with a
    user store that does not know user 0, [update(1, {userId: 0})] returns
    and stores the post with owner 0. *)
Theorem update_userId_zero_skips_user_check :
  sample_exists 0 = false
  /\ exists p s',
       PostsService.update sample_exists 1 (mkUpdate (Some 0) None None None) seeded
       = (Returned p, s')
       /\ post_id p = 1 /\ post_userId p = 0
       /\ posts s' !! 0%nat = Some p
       /\ ~ owners_exist sample_exists s'.
Proof.
  split; [reflexivity |]. eexists _, _. split; [vm_compute; reflexivity |].
  repeat split. intros H. apply Forall_cons in H as [H _]. discriminate H.
Qed.

Section referential.
Variable usersService_exists : Z -> bool.

(** The same defect for every store and every user store. *)
Lemma update_userId_zero_returns (id : Z) (dto : UpdatePostDto) (s : State) :
  update_userId dto = Some 0 -> id ∈ ids s ->
  exists p s',
    PostsService.update usersService_exists id dto s = (Returned p, s')
    /\ post_userId p = 0 /\ p ∈ posts s'.
Proof.
  intros H0 Hin.
  destruct (update_cases usersService_exists id dto s)
    as [[Hn _] | (l1 & x & l2 & Hs & _ & Hx & [(u & Hr & _) | [_ E]])].
  - contradiction.
  - apply userId_refused_Some in Hr as (Hu & Hne & _). congruence.
  - eexists _, _. split; [exact E |]. split.
    + simpl. rewrite H0. reflexivity.
    + simpl. apply elem_of_app. right. constructor.
Qed.

(** Where the guard does work: a non-zero [userId] unknown to the user
    store is refused with a bad-request error and nothing changes. *)
Lemma update_unknown_nonzero_user_refused
    (id userId : Z) (dto : UpdatePostDto) (s : State) :
  update_userId dto = Some userId -> userId <> 0 ->
  usersService_exists userId = false -> id ∈ ids s ->
  PostsService.update usersService_exists id dto s
  = (Thrown (BadRequestException ("User with ID " +:+ show userId +:+ " not found")), s).
Proof.
  intros Hu Hne Hex Hin.
  assert (Hr : userId_refused usersService_exists dto = Some userId)
    by (apply userId_refused_Some; auto).
  destruct (update_cases usersService_exists id dto s)
    as [[Hn _] | (l1 & x & l2 & Hs & _ & Hx & [(u & Hr' & E) | [Hr' _]])].
  - contradiction.
  - rewrite Hr in Hr'. inversion Hr'; subst. exact E.
  - congruence.
Qed.


End referential.

(** C3. A create whose [userId] names no existing user throws a
    [BadRequestException] (status 400), whatever the [userId] and the store;
    it never throws a [NotFoundException]. *)
Theorem create_unknown_user_is_bad_request
    (usersService_exists : Z -> bool) (dto : CreatePostDto) (s : State) :
  usersService_exists (create_userId dto) = false ->
  exists e,
    fst (PostsService.create usersService_exists dto s) = Thrown e
    /\ e = BadRequestException
             ("User with ID " +:+ show (create_userId dto) +:+ " not found")
    /\ getStatus e = 400
    /\ forall message, e <> NotFoundException message.
Proof.
  intros Hex.
  destruct (create_cases usersService_exists dto s) as [[_ E] | [Ht _]]; [| congruence].
  eexists. rewrite E. repeat split. intros message. discriminate.
Qed.

Lemma create_unknown_user_is_bad_request_witness :
  sample_exists 42 = false
  /\ exists e,
       fst (PostsService.create sample_exists
              (mkCreate 42 "A valid title" "A valid body text") seeded) = Thrown e
       /\ e = BadRequestException ("User with ID " +:+ show 42 +:+ " not found")
       /\ getStatus e = 400
       /\ forall message, e <> NotFoundException message.
Proof.
  split; [reflexivity |].
  apply (create_unknown_user_is_bad_request sample_exists
           (mkCreate 42 "A valid title" "A valid body text") seeded).
  reflexivity.
Defined.

Lemma filter_sublist_max {A : Type} (f : A -> bool) (l l' : list A) :
  l' `sublist_of` l -> Forall (fun x => f x = true) l' ->
  l' `sublist_of` List.filter f l.
Proof.
  induction 1 as [| x l1 l2 _ IH | x l1 l2 _ IH]; intros Hall; simpl.
  - constructor.
  - apply Forall_cons in Hall as [Hx Hall]. rewrite Hx.
    apply sublist_skip, IH, Hall.
  - destruct (f x); [apply sublist_cons |]; apply IH, Hall.
Qed.

Lemma filter_sublist {A : Type} (f : A -> bool) (l : list A) :
  List.filter f l `sublist_of` l.
Proof.
  induction l as [|a l IH]; simpl; [constructor |].
  destruct (f a); [apply sublist_skip | apply sublist_cons]; exact IH.
Qed.

(** C5. [findByUserId] returns exactly the posts whose [userId] equals the
    argument: a post is in the result if and only if it is in the store and
    matches; the result is a subsequence of the store's list (same relative
    order); and it is the largest one, every subsequence of matching posts
    being a subsequence of the result. The store is left as it was. *)
Theorem findByUserId_exact (userId : Z) (s : State) :
  exists l,
    findByUserId userId s = (Returned l, s)
    /\ (forall p, p ∈ l <-> p ∈ posts s /\ post_userId p = userId)
    /\ l `sublist_of` posts s
    /\ (forall l', l' `sublist_of` posts s ->
                   Forall (fun p => post_userId p = userId) l' ->
                   l' `sublist_of` l).
Proof.
  exists (List.filter (fun post => post_userId post =? userId) (posts s)).
  split; [reflexivity |]. split; [| split].
  - intros p. rewrite !list_elem_of_In, filter_In, Z.eqb_eq. reflexivity.
  - apply filter_sublist.
  - intros l' Hsub Hall. apply filter_sublist_max; [exact Hsub |].
    eapply Forall_impl; [exact Hall |]. intros p Hp. apply Z.eqb_eq, Hp.
Qed.

(** C6 (as amended). Removing an id that no stored post carries throws a
    [NotFoundException] (status 404) and changes nothing. Removing an id
    that is present returns, deletes the first post carrying it and keeps
    every other post in place, as the following [findAll] shows; when the
    stored identifiers are pairwise distinct the id is then gone from
    the list. *)
Theorem remove_deletes_first_match (id : Z) (s : State) :
  ((id ∉ ids s) ->
   exists e,
     remove id s = (Thrown e, s)
     /\ e = NotFoundException ("Post with ID " +:+ show id +:+ " not found")
     /\ getStatus e = 404)
  /\ ((id ∈ ids s) ->
      exists l1 x l2,
        posts s = l1 ++ x :: l2 /\ (id ∉ map post_id l1) /\ post_id x = id
        /\ remove id s = (Returned tt, mkState (l1 ++ l2) (nextId s))
        /\ fst (findAll (snd (remove id s))) = Returned (l1 ++ l2)
        /\ (NoDup (ids s) -> id ∉ map post_id (l1 ++ l2))).
Proof.
  destruct (remove_cases id s) as [[Hn E] | (l1 & x & l2 & Hs & H1 & Hx & E)]; split.
  - intros _. eexists. split; [exact E |]. split; reflexivity.
  - intros Hin. contradiction.
  - intros Hn. exfalso. apply Hn. unfold ids. rewrite Hs, map_app.
    apply elem_of_app. right. simpl. rewrite Hx. constructor.
  - intros _. exists l1, x, l2. repeat split; auto.
    + rewrite E. reflexivity.
    + unfold ids. rewrite Hs, map_app. simpl. rewrite Hx. intros Hnd.
      apply NoDup_app in Hnd as (_ & _ & Hnd). apply NoDup_cons in Hnd as [Hnd _].
      rewrite map_app. intros [Hin | Hin]%elem_of_app; contradiction.
Qed.

Lemma remove_deletes_first_match_witness :
  ((99 ∉ ids seeded)
   /\ exists e,
        remove 99 seeded = (Thrown e, seeded)
        /\ e = NotFoundException ("Post with ID " +:+ show 99 +:+ " not found")
        /\ getStatus e = 404)
  /\ ((3 ∈ ids seeded) /\ NoDup (ids seeded)
      /\ exists l1 x l2,
           posts seeded = l1 ++ x :: l2 /\ (3 ∉ map post_id l1) /\ post_id x = 3
           /\ remove 3 seeded = (Returned tt, mkState (l1 ++ l2) (nextId seeded))
           /\ fst (findAll (snd (remove 3 seeded))) = Returned (l1 ++ l2)
           /\ (NoDup (ids seeded) -> 3 ∉ map post_id (l1 ++ l2))).
Proof.
  assert (H99 : 99 ∉ ids seeded).
  { apply (bool_decide_unpack _). vm_compute. exact I. }
  assert (H3 : 3 ∈ ids seeded).
  { apply (bool_decide_unpack _). vm_compute. exact I. }
  split.
  - split; [exact H99 |]. exact (proj1 (remove_deletes_first_match 99 seeded) H99).
  - split; [exact H3 |]. split; [apply seeded_ids_wf |].
    exact (proj2 (remove_deletes_first_match 3 seeded) H3).
Defined.

(** C6 (as stated) fails: after [update(2, {id: 1})] on the seeded store two
    posts carry identifier 1; [remove(1)] then returns and the following
    [findAll] still lists a post with identifier 1. *)
Lemma remove_leaves_second_post_with_id :
  fst (remove 1 (PostsService.run sample_exists
                   [OpUpdate 2 (mkUpdate None None None (Some 1))] seeded))
  = Returned tt
  /\ (exists l,
        fst (findAll (snd (remove 1 (PostsService.run sample_exists
               [OpUpdate 2 (mkUpdate None None None (Some 1))] seeded))))
        = Returned l
        /\ map post_id l = [1; 3; 4; 5; 6; 7; 8; 9; 10]
        /\ 1 ∈ map post_id l).
Proof.
  split; [reflexivity |]. eexists. split; [vm_compute; reflexivity |].
  split; [reflexivity |]. simpl. constructor.
Qed.

Lemma find_app_last {A : Type} (f : A -> bool) (l : list A) (a : A) :
  Forall (fun x => f x = false) l -> f a = true -> find f (l ++ [a]) = Some a.
Proof.
  intros Hl Ha. induction Hl as [|x l Hx _ IH]; simpl.
  - rewrite Ha. reflexivity.
  - rewrite Hx. exact IH.
Qed.

(** C7 (as amended). In a store none of whose posts already carries the
    counter's value as identifier, creating a post from a payload with a
    known user and then fetching it by the returned identifier yields the
    very record create returned, whose fields are the payload's. *)
Theorem create_then_findOne
    (usersService_exists : Z -> bool) (dto : CreatePostDto) (s : State) :
  usersService_exists (create_userId dto) = true ->
  (nextId s ∉ ids s) ->
  exists p s',
    PostsService.create usersService_exists dto s = (Returned p, s')
    /\ findOne (post_id p) s' = (Returned p, s')
    /\ post_id p = nextId s
    /\ post_userId p = create_userId dto
    /\ post_title p = create_title dto
    /\ post_body p = create_body dto.
Proof.
  intros Hex Hfresh.
  destruct (create_cases usersService_exists dto s) as [[Hf _] | [_ E]]; [congruence |].
  simpl in E. eexists _, _. split; [exact E |]. split; [| repeat split].
  unfold findOne, bind, this. simpl.
  rewrite find_app_last; [reflexivity | | apply Z.eqb_refl].
  apply id_test_false. exact Hfresh.
Qed.

Lemma create_then_findOne_witness :
  sample_exists 2 = true /\ (nextId seeded ∉ ids seeded)
  /\ exists p s',
       PostsService.create sample_exists
         (mkCreate 2 "A sixth post" "Some text for the body") seeded = (Returned p, s')
       /\ findOne (post_id p) s' = (Returned p, s')
       /\ post_id p = nextId seeded
       /\ post_userId p = 2
       /\ post_title p = "A sixth post"
       /\ post_body p = "Some text for the body".
Proof.
  assert (Hfresh : nextId seeded ∉ ids seeded).
  { apply (bool_decide_unpack _). vm_compute. exact I. }
  split; [reflexivity |]. split; [exact Hfresh |].
  exact (create_then_findOne sample_exists
           (mkCreate 2 "A sixth post" "Some text for the body") seeded
           eq_refl Hfresh).
Defined.

(** C7 (as stated) fails: after [update(1, {id: 11})] on the seeded store,
    a create returns a new post with identifier 11, and fetching identifier
    11 yields the older post, whose owner, title and body differ. *)
Lemma findOne_after_create_returns_older_post :
  exists p q s',
    PostsService.create sample_exists
      (mkCreate 2 "A sixth post" "Some text for the body")
      (PostsService.run sample_exists
         [OpUpdate 1 (mkUpdate None None None (Some 11))] seeded)
    = (Returned p, s')
    /\ post_id p = 11
    /\ findOne (post_id p) s' = (Returned q, s')
    /\ post_userId q = 1 /\ post_userId p = 2
    /\ q <> p.
Proof.
  eexists _, _, _. split; [vm_compute; reflexivity |].
  split; [reflexivity |]. split; [vm_compute; reflexivity |].
  split; [reflexivity |]. split; [reflexivity |]. discriminate.
Qed.

(** C10. Whenever create, update or remove throws, the posts list and the
    counter are exactly as before the call. *)
Theorem failure_leaves_store_unchanged
    (usersService_exists : Z -> bool) (s : State) :
  (forall dto e s',
     PostsService.create usersService_exists dto s = (Thrown e, s') -> s' = s)
  /\ (forall id dto e s',
        PostsService.update usersService_exists id dto s = (Thrown e, s') -> s' = s)
  /\ (forall id e s', remove id s = (Thrown e, s') -> s' = s).
Proof.
  split; [| split].
  - intros dto e s' H.
    destruct (create_cases usersService_exists dto s) as [[_ E] | [_ E]];
      simpl in E; rewrite E in H; congruence.
  - intros id dto e s' H.
    destruct (update_cases usersService_exists id dto s)
      as [[_ E] | (l1 & x & l2 & _ & _ & _ & [(u & _ & E) | [_ E]])];
      rewrite E in H; congruence.
  - intros id e s' H.
    destruct (remove_cases id s) as [[_ E] | (l1 & x & l2 & _ & _ & _ & E)];
      rewrite E in H; congruence.
Qed.

Lemma failure_leaves_store_unchanged_witness :
  snd (PostsService.create sample_exists
         (mkCreate 42 "A valid title" "A valid body text") seeded) = seeded
  /\ snd (PostsService.update sample_exists 1
            (mkUpdate (Some 42) None None None) seeded) = seeded
  /\ snd (PostsService.update sample_exists 99
            (mkUpdate None (Some "Another title") None None) seeded) = seeded
  /\ snd (remove 99 seeded) = seeded.
Proof.
  pose proof (failure_leaves_store_unchanged sample_exists seeded) as (Hc & Hu & Hr).
  split; [| split; [| split]].
  - apply (Hc (mkCreate 42 "A valid title" "A valid body text")
              (BadRequestException "User with ID 42 not found")).
    reflexivity.
  - apply (Hu 1 (mkUpdate (Some 42) None None None)
              (BadRequestException "User with ID 42 not found")).
    reflexivity.
  - apply (Hu 99 (mkUpdate None (Some "Another title") None None)
              (NotFoundException "Post with ID 99 not found")).
    reflexivity.
  - apply (Hr 99 (NotFoundException "Post with ID 99 not found")). reflexivity.
Defined.

End PostsClaims.

(** ** Payload validation *)

Module ValidationClaims.
Import Validation.

Lemma validate_contains (c : DtoClass) (payload : list (string * json))
    (name : string) (decorators : list Decorator) (d : Decorator) :
  (name, decorators) ∈ c -> d ∈ decorators ->
  existsb is_optional decorators && missing (property name payload) = false ->
  satisfies d (property name payload) = false ->
  Violates name d ∈ validate c payload.
Proof.
  intros Hc Hd Hopt Hsat. unfold validate. apply elem_of_app. right.
  apply list_elem_of_In, in_flat_map. exists (name, decorators).
  split; [apply list_elem_of_In, Hc |].
  unfold property_errors. rewrite Hopt. apply in_map, filter_In.
  split; [apply list_elem_of_In, Hd | rewrite Hsat; reflexivity].
Qed.

Lemma ValidationPipe_refuses (c : DtoClass) (payload : list (string * json))
    (e : ValidationError) :
  e ∈ validate c payload ->
  ValidationPipe c payload
  = PostsService.Thrown (PostsService.BadRequestException "Bad Request Exception").
Proof.
  unfold ValidationPipe. destruct (validate c payload); [| reflexivity].
  intros H. inversion H.
Qed.

(** Under [PartialType] a property that is absent or null is not checked,
    and a property that is present is checked as in the base class. *)
Lemma partial_property_errors (name : string) (decorators : list Decorator)
    (value : option json) :
  existsb is_optional decorators = false ->
  property_errors name (decorators ++ [IsOptional]) value
  = if missing value then [] else property_errors name decorators value.
Proof.
  intros Hno. unfold property_errors.
  rewrite existsb_app, Hno. simpl.
  destruct (missing value); [reflexivity |].
  rewrite List.filter_app. simpl. rewrite app_nil_r. reflexivity.
Qed.

(** C4. On create and on update alike, a payload whose title is a string
    shorter than 5 characters (4, for one) or whose body is a string shorter
    than 10 characters has a minimum-length error and is refused by the
    validation pipe with a bad-request error; a title of 5 characters (or
    more) has no error against the title's decorators. An update payload may
    omit any of its properties: the errors of an update payload are the
    non-declared properties plus, for each declared property that is present,
    its errors against the create class's decorators (a number, for [id]);
    absent properties add none, so the empty payload passes. *)
Theorem min_length_validation :
  (forall c payload t,
     c = CreatePostDto \/ c = UpdatePostDto ->
     property "title" payload = Some (JString t) ->
     (String.length t < 5)%nat ->
     Violates "title" (MinLength 5 "Title must be at least 5 characters long")
       ∈ validate c payload
     /\ ValidationPipe c payload
        = PostsService.Thrown (PostsService.BadRequestException "Bad Request Exception"))
  /\ (forall c payload b,
        c = CreatePostDto \/ c = UpdatePostDto ->
        property "body" payload = Some (JString b) ->
        (String.length b < 10)%nat ->
        Violates "body" (MinLength 10 "Body must be at least 10 characters long")
          ∈ validate c payload
        /\ ValidationPipe c payload
           = PostsService.Thrown (PostsService.BadRequestException "Bad Request Exception"))
  /\ (forall t,
        (5 <= String.length t)%nat ->
        property_errors "title"
          [IsString; IsNotEmpty; MinLength 5 "Title must be at least 5 characters long"]
          (Some (JString t)) = []
        /\ property_errors "title"
             ([IsString; IsNotEmpty;
               MinLength 5 "Title must be at least 5 characters long"] ++ [IsOptional])
             (Some (JString t)) = [])
  /\ (forall payload,
        validate UpdatePostDto payload
        = whitelist_errors UpdatePostDto payload
          ++ flat_map (fun '(name, decorators) =>
                         if missing (property name payload) then []
                         else property_errors name decorators (property name payload))
                      (CreatePostDto ++ [("id", [IsNumber])]))
  /\ validate UpdatePostDto [] = [].
Proof.
  split; [| split; [| split; [| split]]].
  - intros c payload t Hc Ht Hlen.
    assert (H : Violates "title" (MinLength 5 "Title must be at least 5 characters long")
                  ∈ validate c payload).
    { destruct Hc as [-> | ->].
      - eapply validate_contains.
        + apply elem_of_cons. right. apply elem_of_cons. left. reflexivity.
        + apply elem_of_cons. right. apply elem_of_cons. right. constructor.
        + reflexivity.
        + rewrite Ht. cbn [satisfies]. apply Nat.leb_gt. exact Hlen.
      - eapply validate_contains.
        + apply elem_of_cons. right. apply elem_of_cons. left. reflexivity.
        + apply elem_of_cons. right. apply elem_of_cons. right. constructor.
        + rewrite Ht. reflexivity.
        + rewrite Ht. cbn [satisfies]. apply Nat.leb_gt. exact Hlen. }
    split; [exact H | eapply ValidationPipe_refuses, H].
  - intros c payload b Hc Hb Hlen.
    assert (H : Violates "body" (MinLength 10 "Body must be at least 10 characters long")
                  ∈ validate c payload).
    { destruct Hc as [-> | ->].
      - eapply validate_contains.
        + do 2 (apply elem_of_cons; right). apply elem_of_cons. left. reflexivity.
        + apply elem_of_cons. right. apply elem_of_cons. right. constructor.
        + reflexivity.
        + rewrite Hb. cbn [satisfies]. apply Nat.leb_gt. exact Hlen.
      - eapply validate_contains.
        + do 2 (apply elem_of_cons; right). apply elem_of_cons. left. reflexivity.
        + apply elem_of_cons. right. apply elem_of_cons. right. constructor.
        + rewrite Hb. reflexivity.
        + rewrite Hb. cbn [satisfies]. apply Nat.leb_gt. exact Hlen. }
    split; [exact H | eapply ValidationPipe_refuses, H].
  - intros t Hlen.
    assert (E : property_errors "title"
                  [IsString; IsNotEmpty;
                   MinLength 5 "Title must be at least 5 characters long"]
                  (Some (JString t)) = []).
    { unfold property_errors. simpl.
      destruct t as [|a t]; [simpl in Hlen; lia |]. simpl.
      apply Nat.leb_le in Hlen. simpl in Hlen. rewrite Hlen. reflexivity. }
    split; [exact E |].
    rewrite partial_property_errors by reflexivity. exact E.
  - intros payload. unfold validate. f_equal.
  - reflexivity.
Qed.

Lemma min_length_validation_witness :
  (Violates "title" (MinLength 5 "Title must be at least 5 characters long")
     ∈ validate UpdatePostDto [("title", JString "abcd")])
  /\ (Violates "body" (MinLength 10 "Body must be at least 10 characters long")
        ∈ validate CreatePostDto
            [("userId", JNumber 1); ("title", JString "abcde"); ("body", JString "too short")])
  /\ property_errors "title"
       [IsString; IsNotEmpty; MinLength 5 "Title must be at least 5 characters long"]
       (Some (JString "abcde")) = [].
Proof.
  destruct min_length_validation as (Htitle & Hbody & Hfive & _).
  split; [| split].
  - apply (Htitle UpdatePostDto [("title", JString "abcd")] "abcd").
    + right. reflexivity.
    + reflexivity.
    + simpl. lia.
  - apply (Hbody CreatePostDto
             [("userId", JNumber 1); ("title", JString "abcde");
              ("body", JString "too short")] "too short").
    + left. reflexivity.
    + reflexivity.
    + simpl. lia.
  - apply (Hfive "abcde"). simpl. lia.
Defined.

(** The two cases of the specification's example, run through the pipe. *)
Example update_title_of_four_refused :
  ValidationPipe UpdatePostDto [("title", JString "abcd")]
  = PostsService.Thrown (PostsService.BadRequestException "Bad Request Exception").
Proof. reflexivity. Qed.

Example update_title_of_five_accepted :
  ValidationPipe UpdatePostDto [("title", JString "abcde")]
  = PostsService.Returned [("title", JString "abcde")].
Proof. reflexivity. Qed.

End ValidationClaims.

(** ** The HTTP client *)

Module ApiClaims.
Import ApiClient.

(** The envelope test of the code computes the payload the specification
    describes. *)
Lemma unwrap_envelope (jsonResponse : json) :
  unwrap jsonResponse = envelope_payload jsonResponse.
Proof.
  unfold unwrap, envelope_payload.
  destruct jsonResponse as [| b | q | s | items | properties]; simpl; try reflexivity.
  - destruct b; reflexivity.
  - destruct (negb (Qeq_bool q 0)); reflexivity.
  - destruct (negb (String.eqb s "")); reflexivity.
Qed.

Section client_facts.
Variable JSON_parse : string -> string + json.

(** The four wrappers that decode with [response.json()] have the same
    body. *)
Lemma post_get net : post JSON_parse net = get JSON_parse net.
Proof. reflexivity. Qed.
Lemma put_get net : put JSON_parse net = get JSON_parse net.
Proof. reflexivity. Qed.
Lemma patch_get net : patch JSON_parse net = get JSON_parse net.
Proof. reflexivity. Qed.

Lemma get_cases (net : FetchOutcome) :
  get JSON_parse net =
  match net with
  | Rejects message => inl (handleRequestError (ThrownError message))
  | Resolves response =>
      if ok response then
        match JSON_parse (body response) with
        | inl message => inl (handleRequestError (ThrownError message))
        | inr decoded => inr (envelope_payload decoded)
        end
      else inl (handleHttpError JSON_parse response)
  end.
Proof.
  destruct net as [message | response]; [reflexivity |].
  unfold get, try_rethrow, await_fetch, eret, ebind, parse. simpl.
  destruct (ok response); simpl; [| reflexivity].
  destruct (JSON_parse (body response)); simpl; [reflexivity |].
  rewrite unwrap_envelope. reflexivity.
Qed.

Lemma delete_cases (net : FetchOutcome) :
  delete JSON_parse net =
  match net with
  | Rejects message => inl (handleRequestError (ThrownError message))
  | Resolves response =>
      if ok response then
        if String.eqb (body response) "" then inr (JObject [])
        else
          match JSON_parse (body response) with
          | inl message => inl (handleRequestError (ThrownError message))
          | inr decoded => inr (envelope_payload decoded)
          end
      else inl (handleHttpError JSON_parse response)
  end.
Proof.
  destruct net as [message | response]; [reflexivity |].
  unfold delete, try_rethrow, await_fetch, eret, ebind, parse. simpl.
  destruct (ok response); simpl; [| reflexivity].
  destruct (String.eqb (body response) ""); [reflexivity |].
  destruct (JSON_parse (body response)); simpl; [reflexivity |].
  rewrite unwrap_envelope. reflexivity.
Qed.

Lemma handleHttpError_status (response : Response) :
  error_status (handleHttpError JSON_parse response) = status response.
Proof.
  unfold handleHttpError.
  destruct (JSON_parse (body response)) as [m | errorBody]; [reflexivity |].
  destruct (member "message" errorBody), (member "details" errorBody); reflexivity.
Qed.

Lemma handleRequestError_Error_status (message : string) :
  error_status (handleRequestError (ThrownError message)) = 0.
Proof. reflexivity. Qed.
End client_facts.

(** Reduce a statement about [post], [put] or [patch] to one about [get]. *)
Ltac as_get :=
  repeat match goal with
    | |- context [post ?P ?n] => change (post P n) with (get P n)
    | |- context [put ?P ?n] => change (put P n) with (get P n)
    | |- context [patch ?P ?n] => change (patch P n) with (get P n)
    end.

(** C8. For a response with a 2xx status whose body decodes, each of the
    five wrappers returns the value of the decoded body's [data] property
    when the decoded body is an object with a [data] key, and the decoded
    body itself otherwise. The decoder is any function that, like
    [JSON.parse], refuses the empty text. *)
Theorem envelope_unwrapped_by_every_wrapper
    (JSON_parse : string -> string + json) (response : Response) (decoded : json) :
  (forall v, JSON_parse "" <> inr v) ->
  ok response = true ->
  JSON_parse (body response) = inr decoded ->
  get JSON_parse (Resolves response) = inr (envelope_payload decoded)
  /\ post JSON_parse (Resolves response) = inr (envelope_payload decoded)
  /\ put JSON_parse (Resolves response) = inr (envelope_payload decoded)
  /\ patch JSON_parse (Resolves response) = inr (envelope_payload decoded)
  /\ delete JSON_parse (Resolves response) = inr (envelope_payload decoded).
Proof.
  intros Hempty Hok Hbody.
  assert (Hget : get JSON_parse (Resolves response) = inr (envelope_payload decoded)).
  { rewrite get_cases, Hok, Hbody. reflexivity. }
  as_get. repeat split; try exact Hget.
  rewrite delete_cases, Hok.
  destruct (String.eqb_spec (body response) "") as [E | _].
  - rewrite E in Hbody. exfalso. exact (Hempty _ Hbody).
  - rewrite Hbody. reflexivity.
Qed.

Lemma envelope_unwrapped_by_every_wrapper_witness :
  get sample_JSON_parse
    (Resolves (mkResponse 200 "OK" ("{" +:+ DQ +:+ "data" +:+ DQ +:+ ":[]}")))
  = inr (JArray [])
  /\ delete sample_JSON_parse
       (Resolves (mkResponse 200 "OK" ("{" +:+ DQ +:+ "data" +:+ DQ +:+ ":[]}")))
     = inr (JArray []).
Proof.
  assert (Hempty : forall v, sample_JSON_parse "" <> inr v).
  { intros v. vm_compute. discriminate. }
  pose proof (envelope_unwrapped_by_every_wrapper sample_JSON_parse
                (mkResponse 200 "OK" ("{" +:+ DQ +:+ "data" +:+ DQ +:+ ":[]}"))
                (JObject [("data", JArray [])]) Hempty eq_refl eq_refl)
    as (Hget & _ & _ & _ & Hdelete).
  split; [exact Hget | exact Hdelete].
Defined.

(** C9 (as amended). Every wrapper maps a rejected fetch (no response) to
    an error record of status 0. For a response that was received: when its
    status is outside 200-299 the wrapper rejects with the record built by
    [handleHttpError], whose status is the server's; when its status is in
    200-299 and the body does not decode, the wrapper rejects with status 0
    (for [delete], unless the body is empty). Conversely, for a received
    response of non-zero status, a wrapper yields status 0 only in that
    last case. *)
Theorem status_zero_cases (JSON_parse : string -> string + json) :
  (forall message,
     Forall (fun wrapper => fails_with_status (wrapper (Rejects message)) 0)
            (wrappers JSON_parse))
  /\ (forall response,
        ok response = false ->
        Forall (fun wrapper =>
                  wrapper (Resolves response) = inl (handleHttpError JSON_parse response))
               (wrappers JSON_parse)
        /\ error_status (handleHttpError JSON_parse response) = status response)
  /\ (forall response message,
        ok response = true ->
        JSON_parse (body response) = inl message ->
        fails_with_status (get JSON_parse (Resolves response)) 0
        /\ fails_with_status (post JSON_parse (Resolves response)) 0
        /\ fails_with_status (put JSON_parse (Resolves response)) 0
        /\ fails_with_status (patch JSON_parse (Resolves response)) 0
        /\ (body response <> "" ->
            fails_with_status (delete JSON_parse (Resolves response)) 0))
  /\ (forall response,
        status response <> 0 ->
        Forall (fun wrapper =>
                  fails_with_status (wrapper (Resolves response)) 0 ->
                  ok response = true
                  /\ exists message, JSON_parse (body response) = inl message)
               (wrappers JSON_parse)).
Proof.
  split; [| split; [| split]].
  - intros message. unfold wrappers.
    repeat (apply Forall_cons; split); try solve [constructor];
      eexists; (split; [reflexivity | reflexivity]).
  - intros response Hok. split; [| apply handleHttpError_status].
    unfold wrappers.
    repeat (apply Forall_cons; split); try solve [constructor]; cbv beta; as_get;
      first [rewrite get_cases | rewrite delete_cases]; rewrite Hok; reflexivity.
  - intros response message Hok Hbody.
    assert (Hget : fails_with_status (get JSON_parse (Resolves response)) 0).
    { rewrite get_cases, Hok, Hbody. eexists. split; reflexivity. }
    as_get. repeat split; try exact Hget.
    intros Hne. rewrite delete_cases, Hok.
    destruct (String.eqb_spec (body response) "") as [E | _]; [contradiction |].
    rewrite Hbody. eexists. split; reflexivity.
  - intros response Hstatus.
    assert (Hget : fails_with_status (get JSON_parse (Resolves response)) 0 ->
                   ok response = true
                   /\ exists message, JSON_parse (body response) = inl message).
    { rewrite get_cases. intros (e & E & He).
      destruct (ok response).
      - split; [reflexivity |].
        destruct (JSON_parse (body response)) as [m | v]; [eauto | discriminate].
      - inversion E; subst e. rewrite handleHttpError_status in He. contradiction. }
    unfold wrappers.
    repeat (apply Forall_cons; split); try solve [constructor]; cbv beta; as_get;
      try exact Hget.
    rewrite delete_cases. intros (e & E & He).
    destruct (ok response).
    + split; [reflexivity |].
      destruct (String.eqb (body response) ""); [discriminate |].
      destruct (JSON_parse (body response)) as [m | v]; [eauto | discriminate].
    + inversion E; subst e. rewrite handleHttpError_status in He. contradiction.
Qed.

Lemma status_zero_cases_witness :
  ok (mkResponse 404 "Not Found"
        ("{" +:+ DQ +:+ "message" +:+ DQ +:+ ":" +:+ DQ
             +:+ "Post with ID 99 not found" +:+ DQ +:+ "}")) = false
  /\ get sample_JSON_parse
       (Resolves (mkResponse 404 "Not Found"
          ("{" +:+ DQ +:+ "message" +:+ DQ +:+ ":" +:+ DQ
               +:+ "Post with ID 99 not found" +:+ DQ +:+ "}")))
     = inl {| error_status := 404;
              error_message := JString "Post with ID 99 not found";
              error_details := JString "" |}
  /\ fails_with_status
       (get sample_JSON_parse (Resolves (mkResponse 200 "OK" "<html>"))) 0.
Proof.
  destruct (status_zero_cases sample_JSON_parse) as (_ & Hhttp & Hparse & _).
  split; [reflexivity |]. split.
  - destruct (Hhttp (mkResponse 404 "Not Found"
        ("{" +:+ DQ +:+ "message" +:+ DQ +:+ ":" +:+ DQ
             +:+ "Post with ID 99 not found" +:+ DQ +:+ "}")) eq_refl) as [Hall _].
    apply Forall_cons in Hall as [Hget _]. rewrite Hget. reflexivity.
  - exact (proj1 (Hparse (mkResponse 200 "OK" "<html>")
                    "Unexpected token" eq_refl eq_refl)).
Defined.

(** C9 (as stated) fails: a GET answered with status 204 and an empty body
    was answered by the server, and the client rejects with status 0. *)
Lemma received_response_yields_status_zero :
  ok (mkResponse 204 "No Content" "") = true
  /\ get sample_JSON_parse (Resolves (mkResponse 204 "No Content" ""))
     = inl {| error_status := 0;
              error_message := JString "Unexpected end of JSON input";
              error_details := JString "Request failed due to network issues" |}.
Proof. split; reflexivity. Qed.

End ApiClaims.

(** * Further properties *)

(** ** The post store: lookups, bookkeeping and composition *)

Module PostsExtra.
Import PostsService PostsFacts PostsHistory.

(** X1. [findOne] throws a [NotFoundException] (status 404) exactly when no
    stored post carries the id; otherwise it returns the first post that
    carries it. Neither [findOne] nor [findAll] changes the store. *)
Theorem findOne_first_match (id : Z) (s : State) :
  snd (findOne id s) = s /\ findAll s = (Returned (posts s), s)
  /\ (((id ∉ ids s)
       /\ exists e, fst (findOne id s) = Thrown e
                    /\ e = NotFoundException ("Post with ID " +:+ show id +:+ " not found")
                    /\ getStatus e = 404)
      \/ ((id ∈ ids s)
          /\ exists l1 x l2,
               posts s = l1 ++ x :: l2 /\ (id ∉ map post_id l1) /\ post_id x = id
               /\ fst (findOne id s) = Returned x)).
Proof.
  destruct (findOne_cases id s) as [[Hn E] | (l1 & x & l2 & Hs & H1 & Hx & E)];
    rewrite E; (split; [reflexivity |]); (split; [reflexivity |]).
  - left. split; [exact Hn |]. eexists. repeat split.
  - right. split.
    + unfold ids. rewrite Hs, map_app. apply elem_of_app. right.
      simpl. rewrite Hx. constructor.
    + exists l1, x, l2. auto.
Qed.

Section bookkeeping.
Variable usersService_exists : Z -> bool.

Lemma exec_bookkeeping (s : State) (op : Op) :
  nextId (exec usersService_exists s op)
  = nextId s + (if is_create op && succeeds usersService_exists s op then 1 else 0)
  /\ Z.of_nat (length (posts (exec usersService_exists s op)))
     = Z.of_nat (length (posts s))
       + (if is_create op && succeeds usersService_exists s op then 1 else 0)
       - (if is_remove op && succeeds usersService_exists s op then 1 else 0).
Proof.
  destruct op as [dto | id dto | id]; simpl.
  - destruct (create_cases usersService_exists dto s) as [[_ E] | [_ E]];
      simpl in E; rewrite E; simpl; [lia |].
    rewrite length_app. simpl. lia.
  - destruct (update_cases usersService_exists id dto s)
      as [[_ E] | (l1 & x & l2 & Hs & _ & _ & [(u & _ & E) | [_ E]])];
      rewrite E; simpl; try lia.
    rewrite Hs, !length_app. simpl. lia.
  - destruct (remove_cases id s) as [[_ E] | (l1 & x & l2 & Hs & _ & _ & E)];
      rewrite E; simpl; [lia |].
    rewrite Hs, !length_app. simpl. lia.
Qed.
End bookkeeping.

(** X2. Along every history, whatever its payloads, the counter equals its
    initial value plus the number of creates that returned, so it never
    decreases and no identifier is handed out twice by create; the length of
    the list equals the initial length plus the creates that returned minus
    the removes that returned. *)
Theorem history_bookkeeping
    (usersService_exists : Z -> bool) (ops : list Op) (s : State) :
  nextId (PostsService.run usersService_exists ops s)
  = nextId s + returned_calls is_create usersService_exists ops s
  /\ nextId s <= nextId (PostsService.run usersService_exists ops s)
  /\ Z.of_nat (length (posts (PostsService.run usersService_exists ops s)))
     = Z.of_nat (length (posts s))
       + returned_calls is_create usersService_exists ops s
       - returned_calls is_remove usersService_exists ops s.
Proof.
  assert (Hpos : forall sel ops s, 0 <= returned_calls sel usersService_exists ops s).
  { intros sel l. induction l as [|op l IH]; intros s0; simpl; [lia |].
    specialize (IH (exec usersService_exists s0 op)).
    destruct (sel op && succeeds usersService_exists s0 op); lia. }
  revert s. induction ops as [|op ops IH]; intros s.
  - simpl. lia.
  - unfold PostsService.run in *. simpl.
    destruct (IH (exec usersService_exists s op)) as (H1 & H2 & H3).
    destruct (exec_bookkeeping usersService_exists s op) as [E1 E2].
    pose proof (Hpos is_create ops (exec usersService_exists s op)).
    rewrite H1, H3, E1, E2.
    destruct (is_create op && succeeds usersService_exists s op),
             (is_remove op && succeeds usersService_exists s op); lia.
Qed.

(** X3. A successful update patches in place: the list keeps its length and
    the counter its value; the first post carrying the id is replaced, at
    its position, by the merge of that post with the payload; every other
    position is untouched; and in the merged post each property the payload
    carries has the payload's value and each property it lacks keeps the old
    value. *)
Theorem update_patches_in_place
    (usersService_exists : Z -> bool) (id : Z) (dto : UpdatePostDto)
    (s s' : State) (p : Post) :
  PostsService.update usersService_exists id dto s = (Returned p, s') ->
  nextId s' = nextId s
  /\ length (posts s') = length (posts s)
  /\ exists (i : nat) (old : Post),
       posts s !! i = Some old /\ post_id old = id
       /\ (forall (j : nat) q, (j < i)%nat -> posts s !! j = Some q -> post_id q <> id)
       /\ posts s' !! i = Some p
       /\ (forall j : nat, j <> i -> posts s' !! j = posts s !! j)
       /\ post_id p = default (post_id old) (update_id dto)
       /\ post_userId p = default (post_userId old) (update_userId dto)
       /\ post_title p = default (post_title old) (update_title dto)
       /\ post_body p = default (post_body old) (update_body dto).
Proof.
  intros H.
  destruct (update_cases usersService_exists id dto s)
    as [[_ E] | (l1 & x & l2 & Hs & H1 & Hx & [(u & _ & E) | [_ E]])];
    rewrite E in H; inversion H; subst p s'; clear H. simpl.
  split; [reflexivity |]. split.
  { rewrite Hs, !length_app. reflexivity. }
  exists (length l1), x. rewrite Hs. repeat split; auto.
  - apply list_lookup_middle. reflexivity.
  - intros j q Hj Hq. rewrite lookup_app_l in Hq by exact Hj.
    intros Eq. apply H1. apply list_elem_of_fmap. exists q. split; [congruence |].
    apply list_elem_of_lookup. eauto.
  - apply list_lookup_middle. reflexivity.
  - intros j Hj. destruct (Nat.lt_ge_cases j (length l1)) as [Hlt | Hge].
    + rewrite !lookup_app_l by exact Hlt. reflexivity.
    + rewrite !lookup_app_r by exact Hge.
      destruct (j - length l1)%nat as [|k] eqn:Ek; [lia | reflexivity].
Qed.

Lemma update_patches_in_place_witness :
  exists p s',
    PostsService.update sample_exists 2
      (mkUpdate None (Some "Another title") None None) seeded = (Returned p, s')
    /\ length (posts s') = length (posts seeded)
    /\ post_title p = "Another title" /\ post_userId p = 1 /\ post_id p = 2.
Proof.
  eexists _, _. split; [vm_compute; reflexivity |].
  pose proof (update_patches_in_place sample_exists 2
                (mkUpdate None (Some "Another title") None None) seeded _ _ eq_refl)
    as (_ & Hlen & _).
  split; [exact Hlen |]. repeat split.
Defined.

Lemma split_first_unique {A : Type} (P : A -> Prop)
    (l1 l2 k1 k2 : list A) (x y : A) :
  l1 ++ x :: l2 = k1 ++ y :: k2 ->
  Forall (fun a => ~ P a) l1 -> P x -> Forall (fun a => ~ P a) k1 -> P y ->
  l1 = k1 /\ x = y /\ l2 = k2.
Proof.
  revert k1. induction l1 as [|a l1 IH]; intros k1 E Hl Hx Hk Hy.
  - destruct k1 as [|b k1]; simpl in E; inversion E; subst; [auto |].
    apply Forall_cons in Hk as [Hb _]. contradiction.
  - destruct k1 as [|b k1]; simpl in E; inversion E; subst.
    + apply Forall_cons in Hl as [Ha _]. contradiction.
    + apply Forall_cons in Hl as [_ Hl]. apply Forall_cons in Hk as [_ Hk].
      destruct (IH k1 H1 Hl Hx Hk Hy) as (-> & -> & ->). auto.
Qed.

Lemma not_in_ids (id : Z) (l : list Post) :
  (id ∉ map post_id l) <-> Forall (fun q => post_id q <> id) l.
Proof.
  rewrite Forall_forall, list_elem_of_fmap. split.
  - intros H q Hq E. apply H. exists q. auto.
  - intros H (q & -> & Hq). exact (H q Hq eq_refl).
Qed.

Lemma spread_idempotent (x : Post) (dto : UpdatePostDto) :
  spread (spread x dto) dto = spread x dto.
Proof.
  unfold spread. simpl.
  destruct (update_id dto), (update_userId dto), (update_title dto), (update_body dto);
    reflexivity.
Qed.

(** X4. Updates are idempotent: when the payload carries no [id] other than
    the addressed one, repeating a successful update returns the same post
    and leaves the store as the first call left it. With the empty payload
    the first call already changes nothing. *)
Theorem update_idempotent
    (usersService_exists : Z -> bool) (id : Z) (dto : UpdatePostDto)
    (s s' : State) (p : Post) :
  keeps_id (OpUpdate id dto) ->
  PostsService.update usersService_exists id dto s = (Returned p, s') ->
  PostsService.update usersService_exists id dto s' = (Returned p, s')
  /\ (dto = mkUpdate None None None None -> s' = s).
Proof.
  intros Hk H.
  destruct (update_cases usersService_exists id dto s)
    as [[_ E] | (l1 & x & l2 & Hs & H1 & Hx & [(u & _ & E) | [Hr E]])];
    rewrite E in H; inversion H; subst p s'; clear H.
  assert (Hid : post_id (spread x dto) = id).
  { rewrite (PostsClaims.spread_keeps_id x id dto Hx Hk). exact Hx. }
  split.
  - destruct (update_cases usersService_exists id dto
                (mkState (l1 ++ spread x dto :: l2) (nextId s)))
      as [[Hn _] | (k1 & y & k2 & Hs' & K1 & Hy & [(u & Hr' & _) | [_ E']])].
    + exfalso. apply Hn. unfold ids. cbn [posts]. rewrite map_app.
      apply elem_of_app. right. rewrite map_cons, Hid. constructor.
    + congruence.
    + simpl in Hs'.
      assert (Hsplit : k1 = l1 /\ y = spread x dto /\ k2 = l2).
      { apply (split_first_unique (fun q => post_id q = id)); auto.
        - apply not_in_ids, K1.
        - apply not_in_ids, H1. }
      destruct Hsplit as (-> & -> & ->). rewrite E'. simpl.
      rewrite spread_idempotent. reflexivity.
  - intros ->. destruct s as [ps n]. simpl in *. subst ps.
    destruct x. reflexivity.
Qed.

Lemma update_idempotent_witness :
  exists p s',
    PostsService.update sample_exists 2
      (mkUpdate (Some 3) (Some "Another title") None (Some 2)) seeded = (Returned p, s')
    /\ PostsService.update sample_exists 2
         (mkUpdate (Some 3) (Some "Another title") None (Some 2)) s' = (Returned p, s').
Proof.
  eexists _, _. split; [vm_compute; reflexivity |].
  apply (update_idempotent sample_exists 2
           (mkUpdate (Some 3) (Some "Another title") None (Some 2)) seeded).
  - right. reflexivity.
  - vm_compute. reflexivity.
Defined.

(** X5. Create followed by remove of the returned identifier is a round
    trip on the list: in a store where no post carries the counter's value,
    the list after the two calls is the list before them, while the counter
    stays advanced, so the removed identifier is not handed out again. *)
Theorem create_then_remove
    (usersService_exists : Z -> bool) (dto : CreatePostDto) (s : State) :
  usersService_exists (create_userId dto) = true ->
  (nextId s ∉ ids s) ->
  exists p s1,
    PostsService.create usersService_exists dto s = (Returned p, s1)
    /\ remove (post_id p) s1 = (Returned tt, mkState (posts s) (nextId s + 1)).
Proof.
  intros Hex Hfresh.
  destruct (create_cases usersService_exists dto s) as [[Hf _] | [_ E]]; [congruence |].
  simpl in E. eexists _, _. split; [exact E |]. simpl.
  set (newPost := mkPost (nextId s) (create_userId dto) (create_title dto) (create_body dto)).
  destruct (remove_cases (nextId s) (mkState (posts s ++ [newPost]) (nextId s + 1)))
    as [[Hn _] | (k1 & y & k2 & Hs & K1 & Hy & E')].
  - exfalso. apply Hn. unfold ids. cbn [posts]. rewrite map_app.
    apply elem_of_app. right. constructor.
  - cbn [posts nextId] in Hs, E'.
    destruct (split_first_unique (fun q => post_id q = nextId s)
                (posts s) [] k1 k2 newPost y Hs) as (<- & _ & <-); auto.
    + apply not_in_ids, Hfresh.
    + apply not_in_ids, K1.
    + rewrite E', app_nil_r. reflexivity.
Qed.

Lemma create_then_remove_witness :
  exists p s1,
    PostsService.create sample_exists
      (mkCreate 2 "A sixth post" "Some text for the body") seeded = (Returned p, s1)
    /\ remove (post_id p) s1 = (Returned tt, mkState (posts seeded) 12).
Proof.
  apply (create_then_remove sample_exists
           (mkCreate 2 "A sixth post" "Some text for the body") seeded).
  - reflexivity.
  - apply (bool_decide_unpack _). vm_compute. exact I.
Defined.

(** X6. After a successful remove in a store with pairwise distinct
    identifiers the id is gone for every later call: [findOne], a second
    [remove] and [update] with any payload all throw a [NotFoundException]
    and leave the store as the remove left it. *)
Theorem remove_then_not_found
    (usersService_exists : Z -> bool) (id : Z) (s s' : State) :
  NoDup (ids s) ->
  remove id s = (Returned tt, s') ->
  let e := NotFoundException ("Post with ID " +:+ show id +:+ " not found") in
  findOne id s' = (Thrown e, s')
  /\ remove id s' = (Thrown e, s')
  /\ forall dto, PostsService.update usersService_exists id dto s' = (Thrown e, s').
Proof.
  intros Hnd H.
  assert (Hgone : id ∉ ids s').
  { destruct (remove_cases id s) as [[_ E] | (l1 & x & l2 & Hs & H1 & Hx & E)];
      rewrite E in H; inversion H; subst s'; clear H.
    unfold ids in *. cbn [posts]. rewrite Hs, map_app, map_cons, Hx in Hnd.
    apply NoDup_app in Hnd as (_ & _ & Hnd). apply NoDup_cons in Hnd as [Hnd _].
    rewrite map_app. intros [Hin | Hin]%elem_of_app; contradiction. }
  simpl. split; [| split].
  - destruct (findOne_cases id s') as [[_ E] | (l1 & x & l2 & Hs & _ & Hx & _)];
      [exact E |].
    exfalso. apply Hgone. unfold ids. rewrite Hs, map_app, map_cons, Hx.
    apply elem_of_app. right. constructor.
  - destruct (remove_cases id s') as [[_ E] | (l1 & x & l2 & Hs & _ & Hx & _)];
      [exact E |].
    exfalso. apply Hgone. unfold ids. rewrite Hs, map_app, map_cons, Hx.
    apply elem_of_app. right. constructor.
  - intros dto.
    destruct (update_cases usersService_exists id dto s')
      as [[_ E] | (l1 & x & l2 & Hs & _ & Hx & _)]; [exact E |].
    exfalso. apply Hgone. unfold ids. rewrite Hs, map_app, map_cons, Hx.
    apply elem_of_app. right. constructor.
Qed.

Lemma remove_then_not_found_witness :
  exists s',
    remove 3 seeded = (Returned tt, s')
    /\ findOne 3 s' = (Thrown (NotFoundException "Post with ID 3 not found"), s')
    /\ remove 3 s' = (Thrown (NotFoundException "Post with ID 3 not found"), s').
Proof.
  eexists. split; [vm_compute; reflexivity |].
  pose proof (remove_then_not_found sample_exists 3 seeded _
                (proj1 PostsClaims.seeded_ids_wf) eq_refl) as (Hf & Hr & _).
  split; [exact Hf | exact Hr].
Defined.



End PostsExtra.

(** ** Payload validation: the whitelist and the accepted payloads *)

Module ValidationExtra.
Import Validation.


Lemma whitelist_errors_nil (c : DtoClass) (payload : list (string * json)) :
  whitelist_errors c payload = []
  <-> forall k v, (k, v) ∈ payload -> declared c k = true.
Proof.
  unfold whitelist_errors. induction payload as [|[k w] payload IH]; simpl.
  - split; [intros _ k v H; inversion H | reflexivity].
  - destruct (declared c k) eqn:Hk; simpl.
    + rewrite IH. split.
      * intros H k' v' [E | Hin]%elem_of_cons; [inversion E; subst; exact Hk | eauto].
      * intros H k' v' Hin. apply (H k' v'). apply list_elem_of_further, Hin.
    + split; [discriminate |]. intros H.
      specialize (H k w (list_elem_of_here _ _)). congruence.
Qed.

(** X8. The pipe forbids non-declared properties: a payload that carries a
    property the DTO class does not declare is refused with a bad-request
    error, whatever else it holds. A create payload that carries an [id] is
    such a payload, so no identifier reaches [PostsService.create] through
    the pipe. *)
Theorem undeclared_property_refused
    (c : DtoClass) (payload : list (string * json)) (name : string) (v : json) :
  (name, v) ∈ payload ->
  declared c name = false ->
  ShouldNotExist name ∈ validate c payload
  /\ ValidationPipe c payload
     = PostsService.Thrown (PostsService.BadRequestException "Bad Request Exception")
  /\ declared CreatePostDto "id" = false.
Proof.
  intros Hin Hdecl.
  assert (H : ShouldNotExist name ∈ validate c payload).
  { unfold validate, whitelist_errors. apply elem_of_app. left.
    apply list_elem_of_In. apply (in_map (fun '(n, _) => ShouldNotExist n) _ (name, v)).
    apply filter_In. split; [apply list_elem_of_In, Hin | rewrite Hdecl; reflexivity]. }
  split; [exact H |]. split; [| reflexivity].
  eapply ValidationClaims.ValidationPipe_refuses, H.
Qed.

Lemma undeclared_property_refused_witness :
  ValidationPipe CreatePostDto
    [("id", JNumber 7); ("userId", JNumber 1);
     ("title", JString "A valid title"); ("body", JString "A valid body text")]
  = PostsService.Thrown (PostsService.BadRequestException "Bad Request Exception").
Proof.
  refine (proj1 (proj2 (undeclared_property_refused CreatePostDto _ "id" (JNumber 7) _ _))).
  - constructor.
  - reflexivity.
Defined.

Lemma create_accepted_iff (payload : list (string * json)) :
  validate CreatePostDto payload = []
  <-> (forall k v, (k, v) ∈ payload -> k = "userId" \/ k = "title" \/ k = "body")
      /\ (exists q, property "userId" payload = Some (JNumber q))
      /\ (exists t, property "title" payload = Some (JString t)
                    /\ (5 <= String.length t)%nat)
      /\ (exists b, property "body" payload = Some (JString b)
                    /\ (10 <= String.length b)%nat).
Proof.
  unfold validate.
  assert (Hwl : whitelist_errors CreatePostDto payload = []
                <-> forall k v, (k, v) ∈ payload ->
                                k = "userId" \/ k = "title" \/ k = "body").
  { rewrite whitelist_errors_nil. split; intros H k v Hin; specialize (H k v Hin).
    - unfold declared, CreatePostDto in H. cbn [existsb] in H.
      apply orb_true_iff in H as [H | H]; [apply String.eqb_eq in H; auto |].
      apply orb_true_iff in H as [H | H]; [apply String.eqb_eq in H; auto |].
      apply orb_true_iff in H as [H | H]; [apply String.eqb_eq in H; auto |].
      discriminate.
    - destruct H as [-> | [-> | ->]]; reflexivity. }
  assert (Huser : property_errors "userId" [IsNumber; IsNotEmpty] (property "userId" payload) = []
                  <-> exists q, property "userId" payload = Some (JNumber q)).
  { destruct (property "userId" payload) as [[| | q | s | |]|]; unfold property_errors; simpl;
      try (split; [discriminate | intros [q' E]; discriminate]).
    split; [eauto | reflexivity]. }
  assert (Hstr : forall name n msg,
            property_errors name [IsString; IsNotEmpty; MinLength n msg]
              (property name payload) = []
            <-> exists t, property name payload = Some (JString t)
                          /\ ((t <> "") /\ n <= String.length t)%nat).
  { intros name n msg.
    destruct (property name payload) as [[| | q | s | |]|]; unfold property_errors;
      cbn [existsb is_optional orb andb missing List.filter satisfies negb map];
      try (split; [discriminate | intros (t & E & _); discriminate]).
    destruct (String.eqb_spec s "") as [-> | Hne]; cbn [negb map List.filter].
    - split; [discriminate | intros (t & E & Ht & _); inversion E; subst; congruence].
    - destruct (Nat.leb_spec n (String.length s)); cbn [negb map List.filter].
      + split; [intros _; exists s; auto | reflexivity].
      + split; [discriminate | intros (t & E & _ & Ht); inversion E; subst; lia]. }
  unfold CreatePostDto at 2. cbn [flat_map]. rewrite app_nil_r.
  split.
  - intros H. apply app_eq_nil in H as [H0 H]. apply app_eq_nil in H as [H1 H].
    apply app_eq_nil in H as [H2 H3].
    pose proof (proj1 Hwl H0) as K0. pose proof (proj1 Huser H1) as K1.
    destruct (proj1 (Hstr _ _ _) H2) as (t & Et & _ & Ht).
    destruct (proj1 (Hstr _ _ _) H3) as (b & Eb & _ & Hb).
    repeat split; eauto.
  - intros (H0 & H1 & (t & Et & Ht) & (b & Eb & Hb)).
    rewrite (proj2 Hwl H0), (proj2 Huser H1). simpl.
    assert (H2 : property_errors "title"
                   [IsString; IsNotEmpty;
                    MinLength 5 "Title must be at least 5 characters long"]
                   (property "title" payload) = []).
    { apply Hstr. exists t. repeat split; auto. intros ->. simpl in Ht. lia. }
    assert (H3 : property_errors "body"
                   [IsString; IsNotEmpty;
                    MinLength 10 "Body must be at least 10 characters long"]
                   (property "body" payload) = []).
    { apply Hstr. exists b. repeat split; auto. intros ->. simpl in Hb. lia. }
    rewrite H2, H3. reflexivity.
Qed.




End ValidationExtra.

(** ** The HTTP client: error records and the empty body *)

Module ApiExtra.
Import ApiClient ApiClaims.

Lemma handleHttpError_chain
    (JSON_parse : string -> string + json) (response : Response) :
  let e := handleHttpError JSON_parse response in
  error_status e = status response
  /\ truthy (error_message e) = true
  /\ (error_details e = JString "" \/ truthy (error_details e) = true)
  /\ (forall errorBody m,
        JSON_parse (body response) = inr errorBody ->
        named "message" errorBody = Some m -> truthy m = true ->
        error_message e = m)
  /\ (forall syntaxError,
        JSON_parse (body response) = inl syntaxError ->
        error_message e
        = JString (if String.eqb (statusText response) ""
                   then "HTTP Error: " +:+ show (status response)
                   else statusText response)).
Proof.
  assert (Hcaught : forall t, truthy
            (if String.eqb t "" then JString ("HTTP Error: " +:+ show (status response))
             else JString t) = true).
  { intros t. destruct (String.eqb_spec t "") as [-> | Hne]; [reflexivity |].
    simpl. apply negb_true_iff, String.eqb_neq, Hne. }
  assert (Hor : forall a b, truthy b = true -> truthy (or_else a b) = true).
  { intros [v|] b Hb; simpl; [| exact Hb]. destruct (truthy v) eqn:Hv; assumption. }
  assert (Hdet : forall a, or_else a (JString "") = JString ""
                           \/ truthy (or_else a (JString "")) = true).
  { intros [v|]; simpl; [| left; reflexivity].
    destruct (truthy v) eqn:Hv; [right; exact Hv | left; reflexivity]. }
  cbv zeta. split; [apply handleHttpError_status |].
  unfold handleHttpError.
  destruct (JSON_parse (body response)) as [syntaxError | errorBody] eqn:Hbody.
  - cbn [error_message error_details]. split; [apply Hcaught |].
    split; [left; reflexivity |]. split; [discriminate |].
    intros _ _. destruct (String.eqb (statusText response) ""); reflexivity.
  - destruct errorBody as [| b | q | s | items | properties];
      cbn [member named error_message error_details];
      (split; [first [apply Hcaught | apply Hor; reflexivity] |]);
      (split; [first [left; reflexivity | apply Hdet] |]);
      (split; [| discriminate]);
      intros errorBody' m E Hm Ht; inversion E; subst errorBody';
      cbn [named] in Hm; try discriminate.
    rewrite Hm. simpl. rewrite Ht. reflexivity.
Qed.



(** X12. Whatever the network does, a wrapper that rejects does so with a
    record whose message is truthy: the server's message, the status text,
    the [HTTP Error] text, the message of the failed fetch or decode, or
    [Network error occurred]. *)
Theorem rejection_has_message
    (JSON_parse : string -> string + json) (net : FetchOutcome) :
  Forall (fun wrapper =>
            forall e, wrapper net = inl e -> truthy (error_message e) = true)
         (wrappers JSON_parse).
Proof.
  assert (Herr : forall m e, handleRequestError (ThrownError m) = e ->
                             truthy (error_message e) = true).
  { intros m e <-. simpl. destruct (String.eqb_spec m "") as [-> | Hne]; [reflexivity |].
    apply negb_true_iff, String.eqb_neq, Hne. }
  assert (Hhttp : forall r e, handleHttpError JSON_parse r = e ->
                              truthy (error_message e) = true).
  { intros r e <-. apply (handleHttpError_chain JSON_parse r). }
  assert (Hget : forall e, get JSON_parse net = inl e -> truthy (error_message e) = true).
  { intros e. rewrite get_cases. destruct net as [m | r].
    - intros E. inversion E. eapply Herr; reflexivity.
    - destruct (ok r).
      + destruct (JSON_parse (body r)); intros E; inversion E. eapply Herr; reflexivity.
      + intros E. inversion E. eapply Hhttp; reflexivity. }
  unfold wrappers.
  repeat (apply Forall_cons; split); try solve [constructor]; cbv beta; as_get;
    try exact Hget.
  intros e. rewrite delete_cases. destruct net as [m | r].
  - intros E. inversion E. eapply Herr; reflexivity.
  - destruct (ok r).
    + destruct (String.eqb (body r) ""); [discriminate |].
      destruct (JSON_parse (body r)); intros E; inversion E. eapply Herr; reflexivity.
    + intros E. inversion E. eapply Hhttp; reflexivity.
Qed.

(** X13. [delete] and [get] treat every outcome alike except a 2xx response
    with an empty body: there [delete] returns the empty object without
    decoding, while [get] returns or rejects as the decoder decides. *)
Theorem delete_differs_on_empty_body_only
    (JSON_parse : string -> string + json) (net : FetchOutcome) :
  match net with
  | Resolves response =>
      if ok response && String.eqb (body response) ""
      then delete JSON_parse net = inr (JObject [])
           /\ get JSON_parse net
              = match JSON_parse "" with
                | inl message => inl (handleRequestError (ThrownError message))
                | inr decoded => inr (envelope_payload decoded)
                end
      else delete JSON_parse net = get JSON_parse net
  | Rejects _ => delete JSON_parse net = get JSON_parse net
  end.
Proof.
  rewrite get_cases, delete_cases. destruct net as [m | r]; [reflexivity |].
  destruct (ok r); [| reflexivity].
  destruct (String.eqb_spec (body r) "") as [E | _]; [| reflexivity].
  simpl. rewrite E. split; reflexivity.
Qed.

End ApiExtra.

(** ** The frontend post service *)

Module PostServiceExtra.
Import ApiClient ApiClaims ApiTransport JsString PostService.

Lemma trimStart_length (s : string) :
  (String.length (trimStart s) <= String.length s)%nat.
Proof.
  induction s as [|c s IH]; simpl; [lia |].
  destruct (is_space c); simpl; lia.
Qed.

Lemma trimEnd_length (s : string) :
  (String.length (trimEnd s) <= String.length s)%nat.
Proof.
  induction s as [|c s IH]; simpl; [lia |].
  destruct (trimEnd s) as [|d t]; simpl in *.
  - destruct (is_space c); simpl; lia.
  - lia.
Qed.

(** Trimming never lengthens a string. *)
Lemma trim_length (s : string) :
  (String.length (trim s) <= String.length s)%nat.
Proof.
  unfold trim. pose proof (trimEnd_length (trimStart s)). pose proof (trimStart_length s).
  lia.
Qed.

Lemma invalid_id_false (id : Z) : invalid_id id = false <-> 0 < id.
Proof.
  unfold invalid_id. rewrite orb_false_iff, Z.eqb_neq, Z.leb_gt. lia.
Qed.

Lemma trimmed_shorter_false (s : string) (n : nat) :
  trimmed_shorter s n = false -> (n <= String.length s)%nat.
Proof.
  unfold trimmed_shorter. intros H. apply Nat.ltb_ge in H.
  pose proof (trim_length s). lia.
Qed.

Section reads.
Variable JSON_parse : string -> string + json.
Variable baseURL : string.
Variable fetch : Request -> FetchOutcome.

(** What a successful wrapper call followed by [validateApiResponse] tells
    about the network. *)
Lemma get_validated (net : FetchOutcome) (v : json) :
  andThen (awaited (get JSON_parse net)) validateApiResponse = inr v ->
  v <> JNull
  /\ exists response decoded,
       net = Resolves response /\ ok response = true
       /\ JSON_parse (body response) = inr decoded
       /\ envelope_payload decoded = v.
Proof.
  rewrite get_cases. destruct net as [m | r]; [discriminate |].
  destruct (ok r) eqn:Hok; [| discriminate].
  destruct (JSON_parse (body r)) as [m | d] eqn:Hd; [discriminate |].
  simpl. destruct (envelope_payload d) eqn:Hv; simpl; try discriminate;
    intros E; inversion E; subst v; (split; [discriminate |]);
    exists r, d; auto.
Qed.
(** What a failed one tells: the error is the client's record or the
    [Error] of [validateApiResponse]; its message, if it has one, does not
    contain 404. *)
Lemma awaited_failure {B : Type} (result : ApiError + json)
    (k : json -> Caught + B) (error : Caught) :
  (forall a error', k a = inl error' ->
                    error' = CaughtError "API returned null or undefined data") ->
  andThen (awaited result) k = inl error ->
  Error_includes "404" error = false
  /\ (error = CaughtError "API returned null or undefined data"
      \/ exists e, error = CaughtApiError e).
Proof.
  intros Hk. destruct result as [e | a]; simpl.
  - intros E. inversion E. split; [reflexivity | right; eauto].
  - intros E. apply Hk in E. subst error. split; [vm_compute; reflexivity | left; reflexivity].
Qed.

Lemma validateApiResponse_failure (data : json) (error : Caught) :
  validateApiResponse data = inl error ->
  error = CaughtError "API returned null or undefined data".
Proof.
  destruct data; simpl; intros E; inversion E; reflexivity.
Qed.
End reads.

(** X14. The three reads of the post service return only what a 2xx
    response carried, unwrapped and not [null]; and each of them fails with
    one fixed message whatever went wrong. For [getPostById] this holds even
    when the id is invalid or the server answers 404: the text
    [<id> ID'li gönderi bulunamadı] of its handler is never produced,
    since the handler asks for an [Error] instance and the client rejects
    with a plain record. *)
Theorem reads_return_payload_or_fixed_message
    (JSON_parse : string -> string + json) (baseURL : string)
    (fetch : Request -> FetchOutcome) :
  let received (req : Request) (v : json) :=
    v <> JNull
    /\ exists response decoded,
         fetch req = Resolves response /\ ok response = true
         /\ JSON_parse (body response) = inr decoded
         /\ envelope_payload decoded = v in
  (match getAllPosts JSON_parse baseURL fetch with
   | inr v => received (mkRequest "GET" (baseURL +:+ "/posts") None) v
   | inl message =>
       message = "Gönderiler yüklenirken bir hata oluştu. Lütfen tekrar deneyin."
   end)
  /\ (forall id,
        match getPostById JSON_parse baseURL fetch id with
        | inr v => 0 < id
                   /\ received (mkRequest "GET" (baseURL +:+ "/posts/" +:+ show id) None) v
        | inl message => message = "Gönderi yüklenirken bir hata oluştu"
        end)
  /\ (forall userId,
        match getPostsByUserId JSON_parse baseURL fetch userId with
        | inr v => 0 < userId
                   /\ received (mkRequest "GET"
                                  (baseURL +:+ "/posts?userId=" +:+ show userId) None) v
        | inl message =>
            message
            = show userId +:+ " ID'li kullanıcının gönderileri yüklenirken bir hata oluştu"
        end).
Proof.
  cbv zeta. split; [| split].
  - unfold getAllPosts, try_catch, apiClient_get.
    destruct (andThen _ _) as [error | v] eqn:E; [reflexivity |].
    apply get_validated in E. exact E.
  - intros id. unfold getPostById, try_catch, apiClient_get, throwIf.
    destruct (invalid_id id) eqn:Hid.
    + cbn [andThen]. vm_compute. reflexivity.
    + cbn [andThen].
      destruct (andThen _ _) as [error | v] eqn:E.
      * apply awaited_failure in E as [E _];
          [| intros a error'; apply validateApiResponse_failure].
        rewrite E. reflexivity.
      * apply invalid_id_false in Hid. split; [exact Hid |].
        apply get_validated in E. exact E.
  - intros userId. unfold getPostsByUserId, try_catch, apiClient_get, throwIf.
    destruct (invalid_id userId) eqn:Hid; cbn [andThen]; [reflexivity |].
    destruct (andThen _ _) as [error | v] eqn:E; [reflexivity |].
    apply invalid_id_false in Hid. split; [exact Hid |].
    apply get_validated in E. exact E.
Qed.

Lemma string_field_ok (name : string) (n : nat) (msg t : string) :
  (1 <= n)%nat -> (n <= String.length t)%nat ->
  Validation.property_errors name
    [Validation.IsString; Validation.IsNotEmpty; Validation.MinLength n msg]
    (Some (JString t)) = [].
Proof.
  intros Hn Ht. unfold Validation.property_errors.
  cbn [existsb Validation.is_optional orb andb Validation.missing List.filter
       Validation.satisfies negb map].
  destruct t as [|a t]; [simpl in Ht; lia |].
  apply Nat.leb_le in Ht. cbn [String.eqb negb]. rewrite Ht. reflexivity.
Qed.

(** X15. [createPost] either refuses the payload by itself, with one of its
    five validation messages and whatever the network would do, or sends
    exactly the request [POST <baseURL>/posts] with the payload as body; in
    the second case the payload passes the backend's validation of
    [CreatePostDto]. When the call fails, the message is one of the five,
    the message of [validateApiResponse], or the one generic text: the
    message of a server error is never passed on. *)
Theorem createPost_refuses_or_sends
    (JSON_parse : string -> string + json) (baseURL : string)
    (postData : CreatePostRequest) :
  let request := mkRequest "POST" (baseURL +:+ "/posts") (Some (createBody postData)) in
  let local := ["Geçerli bir kullanıcı ID'si seçiniz";
                "Gönderi başlığı zorunludur";
                "Gönderi başlığı en az 5 karakter olmalıdır";
                "Gönderi içeriği zorunludur";
                "Gönderi içeriği en az 10 karakter olmalıdır"] in
  ((exists message,
      In message local
      /\ forall fetch, createPost JSON_parse baseURL fetch postData = inl message)
   \/ (Validation.validate Validation.CreatePostDto
         (object_properties (createBody postData)) = []
       /\ forall fetch,
            createPost JSON_parse baseURL fetch postData
            = try_catch
                (andThen (awaited (post JSON_parse (fetch request))) validateApiResponse)
                (rethrow_Error "Gönderi oluşturulurken bir hata oluştu")))
  /\ (forall fetch message,
        createPost JSON_parse baseURL fetch postData = inl message ->
        In message (local ++ ["API returned null or undefined data";
                              "Gönderi oluşturulurken bir hata oluştu"])).
Proof.
  cbv zeta.
  assert (Hcases :
    (exists message,
      In message ["Geçerli bir kullanıcı ID'si seçiniz";
                  "Gönderi başlığı zorunludur";
                  "Gönderi başlığı en az 5 karakter olmalıdır";
                  "Gönderi içeriği zorunludur";
                  "Gönderi içeriği en az 10 karakter olmalıdır"]
      /\ forall fetch, createPost JSON_parse baseURL fetch postData = inl message)
    \/ (0 < req_userId postData
        /\ (5 <= String.length (req_title postData))%nat
        /\ (10 <= String.length (req_body postData))%nat
        /\ forall fetch,
            createPost JSON_parse baseURL fetch postData
            = try_catch
                (andThen (awaited (post JSON_parse
                   (fetch (mkRequest "POST" (baseURL +:+ "/posts")
                             (Some (createBody postData))))))
                   validateApiResponse)
                (rethrow_Error "Gönderi oluşturulurken bir hata oluştu"))).
  { unfold createPost, throwIf, apiClient_post.
    destruct (invalid_id (req_userId postData)) eqn:H1;
      [left; eexists; split; [| intros fetch; reflexivity]; simpl; tauto |].
    destruct (blank (req_title postData)) eqn:H2;
      [left; eexists; split; [| intros fetch; reflexivity]; simpl; tauto |].
    destruct (trimmed_shorter (req_title postData) 5) eqn:H3;
      [left; eexists; split; [| intros fetch; reflexivity]; simpl; tauto |].
    destruct (blank (req_body postData)) eqn:H4;
      [left; eexists; split; [| intros fetch; reflexivity]; simpl; tauto |].
    destruct (trimmed_shorter (req_body postData) 10) eqn:H5;
      [left; eexists; split; [| intros fetch; reflexivity]; simpl; tauto |].
    right. apply invalid_id_false in H1.
    apply trimmed_shorter_false in H3, H5. repeat split; auto. }
  split.
  - destruct Hcases as [H | (Hu & Ht & Hb & Hsend)]; [left; exact H | right].
    split; [| exact Hsend].
    apply ValidationExtra.create_accepted_iff. unfold createBody, object_properties.
    repeat split.
    + intros k v Hin. repeat (apply elem_of_cons in Hin as [Hin | Hin];
        [inversion Hin; auto |]). inversion Hin.
    + eexists. reflexivity.
    + eexists. split; [reflexivity | exact Ht].
    + eexists. split; [reflexivity | exact Hb].
  - intros fetch message E.
    destruct Hcases as [(m & Hm & Hall) | (_ & _ & _ & Hsend)].
    + rewrite Hall in E. inversion E; subst m. apply in_or_app. left. exact Hm.
    + rewrite Hsend in E. unfold try_catch in E.
      destruct (andThen _ _) as [error | v] eqn:Ea; [| discriminate].
      inversion E; subst message.
      apply awaited_failure in Ea as [_ [-> | (e & ->)]];
        [| | intros a error'; apply validateApiResponse_failure]; simpl; tauto.
Qed.

Lemma optional_string_field_ok (name : string) (n : nat) (msg : string)
    (value : option string) :
  (1 <= n)%nat ->
  (forall t, value = Some t -> (n <= String.length t)%nat) ->
  Validation.property_errors name
    ([Validation.IsString; Validation.IsNotEmpty; Validation.MinLength n msg]
     ++ [Validation.IsOptional])
    (match value with Some t => Some (JString t) | None => None end) = [].
Proof.
  intros Hn Hv. rewrite ValidationClaims.partial_property_errors by reflexivity.
  destruct value as [t|]; [| reflexivity]. cbn [Validation.missing].
  apply string_field_ok; auto.
Qed.

Lemma update_payload_valid (id : Z) (postData : PartialPostRequest) :
  (forall t, part_title postData = Some t -> (5 <= String.length t)%nat) ->
  (forall b, part_body postData = Some b -> (10 <= String.length b)%nat) ->
  Validation.validate Validation.UpdatePostDto
    (object_properties (updatePayload id postData)) = [].
Proof.
  intros Ht Hb. unfold updatePayload, object_properties, Validation.validate.
  pose proof (optional_string_field_ok "title" 5
                "Title must be at least 5 characters long" (part_title postData)
                ltac:(lia) Ht) as Et.
  pose proof (optional_string_field_ok "body" 10
                "Body must be at least 10 characters long" (part_body postData)
                ltac:(lia) Hb) as Eb.
  destruct (part_userId postData) as [u|], (part_title postData) as [t|],
           (part_body postData) as [b|];
    cbn [present app Validation.whitelist_errors Validation.declared
         Validation.UpdatePostDto Validation.PartialType Validation.CreatePostDto
         map List.filter existsb String.eqb Ascii.eqb Bool.eqb negb orb andb
         flat_map property] in *;
    rewrite ?Et, ?Eb; reflexivity.
Qed.

(** X16. [updatePost] either refuses by itself, with one of its seven
    validation messages and whatever the network would do, or sends exactly
    the request [PATCH <baseURL>/posts/<id>] whose body is the payload with
    the addressed id added as [id]. In the second case the id is positive,
    the body's [id] is the addressed id, a [userId] in the body is positive
    (never 0), and the body passes the backend's validation of
    [UpdatePostDto]. *)
Theorem updatePost_refuses_or_sends
    (JSON_parse : string -> string + json) (baseURL : string)
    (id : Z) (postData : PartialPostRequest) :
  let payload := updatePayload id postData in
  let request := mkRequest "PATCH" (baseURL +:+ "/posts/" +:+ show id) (Some payload) in
  (exists message,
     In message ["Geçerli bir gönderi ID'si gerekli";
                 "Güncellenecek en az bir alan doldurulmalıdır";
                 "Gönderi başlığı boş olamaz";
                 "Gönderi başlığı en az 5 karakter olmalıdır";
                 "Gönderi içeriği boş olamaz";
                 "Gönderi içeriği en az 10 karakter olmalıdır";
                 "Geçerli bir kullanıcı ID'si seçiniz"]
     /\ forall fetch, updatePost JSON_parse baseURL fetch id postData = inl message)
  \/ (0 < id
      /\ property "id" (object_properties payload) = Some (number id)
      /\ (forall userId, part_userId postData = Some userId ->
                         0 < userId
                         /\ property "userId" (object_properties payload)
                            = Some (number userId))
      /\ Validation.validate Validation.UpdatePostDto (object_properties payload) = []
      /\ forall fetch,
           updatePost JSON_parse baseURL fetch id postData
           = try_catch
               (andThen (awaited (patch JSON_parse (fetch request))) validateApiResponse)
               (rethrow_Error "Gönderi güncellenirken bir hata oluştu")).
Proof.
  cbv zeta. unfold updatePost, throwIf, apiClient_patch.
  destruct (invalid_id id) eqn:H1;
    [left; eexists; split; [| intros fetch; reflexivity]; simpl; tauto |].
  destruct (hasValidData postData) eqn:H2;
    [| left; eexists; split; [| intros fetch; reflexivity]; simpl; tauto].
  cbn [negb andThen].
  assert (Ht : (exists m, In m ["Gönderi başlığı boş olamaz";
                               "Gönderi başlığı en az 5 karakter olmalıdır"]
                          /\ match part_title postData with
                             | Some title =>
                                 andThen (if blank title
                                          then inl (CaughtError "Gönderi başlığı boş olamaz")
                                          else inr tt)
                                   (fun _ => if trimmed_shorter title 5
                                             then inl (CaughtError
                                                    "Gönderi başlığı en az 5 karakter olmalıdır")
                                             else inr tt)
                             | None => pure tt
                             end = inl (CaughtError m))
               \/ ((forall t, part_title postData = Some t -> (5 <= String.length t)%nat)
                   /\ match part_title postData with
                      | Some title =>
                          andThen (if blank title
                                   then inl (CaughtError "Gönderi başlığı boş olamaz")
                                   else inr tt)
                            (fun _ => if trimmed_shorter title 5
                                      then inl (CaughtError
                                             "Gönderi başlığı en az 5 karakter olmalıdır")
                                      else inr tt)
                      | None => pure tt
                      end = inr tt)).
  { destruct (part_title postData) as [t|]; [| right; split; [discriminate | reflexivity]].
    destruct (blank t); [left; eexists; split; [| reflexivity]; simpl; tauto |].
    destruct (trimmed_shorter t 5) eqn:H;
      [left; eexists; split; [| reflexivity]; simpl; tauto |].
    right. split; [| reflexivity]. intros t' E. inversion E; subst t'.
    apply trimmed_shorter_false, H. }
  assert (Hb : (exists m, In m ["Gönderi içeriği boş olamaz";
                               "Gönderi içeriği en az 10 karakter olmalıdır"]
                          /\ match part_body postData with
                             | Some body =>
                                 andThen (if blank body
                                          then inl (CaughtError "Gönderi içeriği boş olamaz")
                                          else inr tt)
                                   (fun _ => if trimmed_shorter body 10
                                             then inl (CaughtError
                                                    "Gönderi içeriği en az 10 karakter olmalıdır")
                                             else inr tt)
                             | None => pure tt
                             end = inl (CaughtError m))
               \/ ((forall b, part_body postData = Some b -> (10 <= String.length b)%nat)
                   /\ match part_body postData with
                      | Some body =>
                          andThen (if blank body
                                   then inl (CaughtError "Gönderi içeriği boş olamaz")
                                   else inr tt)
                            (fun _ => if trimmed_shorter body 10
                                      then inl (CaughtError
                                             "Gönderi içeriği en az 10 karakter olmalıdır")
                                      else inr tt)
                      | None => pure tt
                      end = inr tt)).
  { destruct (part_body postData) as [b|]; [| right; split; [discriminate | reflexivity]].
    destruct (blank b); [left; eexists; split; [| reflexivity]; simpl; tauto |].
    destruct (trimmed_shorter b 10) eqn:H;
      [left; eexists; split; [| reflexivity]; simpl; tauto |].
    right. split; [| reflexivity]. intros b' E. inversion E; subst b'.
    apply trimmed_shorter_false, H. }
  destruct Ht as [(m & Hm & Et) | [Ht Et]]; rewrite Et;
    [left; exists m; split; [| intros fetch; reflexivity]; simpl in *; tauto |].
  cbn [andThen].
  destruct Hb as [(m & Hm & Eb) | [Hb Eb]]; rewrite Eb;
    [left; exists m; split; [| intros fetch; reflexivity]; simpl in *; tauto |].
  cbn [andThen].
  destruct (part_userId postData) as [u|] eqn:Hu.
  - destruct (invalid_id u) eqn:H3;
      [left; eexists; split; [| intros fetch; reflexivity]; simpl; tauto |].
    right. apply invalid_id_false in H1, H3.
    split; [exact H1 |]. split; [reflexivity |]. split.
    { intros userId E. inversion E; subst userId. split; [exact H3 |].
      unfold updatePayload, object_properties. rewrite Hu. reflexivity. }
    split; [apply update_payload_valid; assumption |].
    intros fetch. reflexivity.
  - right. apply invalid_id_false in H1.
    split; [exact H1 |]. split; [reflexivity |].
    split; [intros userId E; discriminate |].
    split; [apply update_payload_valid; assumption |].
    intros fetch. reflexivity.
Qed.

(** X17. [deletePost] returns only for a positive id whose DELETE request
    was answered 2xx with an empty or a decodable body, and it fails with
    one fixed message in every other case, a 404 answer included: the text
    [<id> ID'li gönderi bulunamadı] of its handler is never produced. *)
Theorem deletePost_returns_or_fixed_message
    (JSON_parse : string -> string + json) (baseURL : string)
    (fetch : Request -> FetchOutcome) (id : Z) :
  match deletePost JSON_parse baseURL fetch id with
  | inr _ =>
      0 < id
      /\ exists response,
           fetch (mkRequest "DELETE" (baseURL +:+ "/posts/" +:+ show id) None)
           = Resolves response
           /\ ok response = true
           /\ (body response = "" \/ exists decoded, JSON_parse (body response) = inr decoded)
  | inl message => message = "Gönderi silinirken bir hata oluştu"
  end.
Proof.
  unfold deletePost, try_catch, throwIf, apiClient_delete.
  destruct (invalid_id id) eqn:Hid; cbn [andThen]; [vm_compute; reflexivity |].
  destruct (andThen _ _) as [error | []] eqn:E.
  - apply awaited_failure in E as [E _]; [| discriminate]. rewrite E. reflexivity.
  - apply invalid_id_false in Hid. split; [exact Hid |].
    rewrite delete_cases in E.
    destruct (fetch _) as [m | r]; [discriminate |].
    exists r. split; [reflexivity |].
    destruct (ok r); [| discriminate]. split; [reflexivity |].
    destruct (String.eqb_spec (body r) "") as [Eb | _]; [left; exact Eb | right].
    destruct (JSON_parse (body r)) as [m | d]; [discriminate | eauto].
Qed.

Lemma countByUser_from (posts : list PostsService.Post) (counts : gmap Z Z) (u : Z) :
  let n := Z.of_nat (length (List.filter
                               (fun post => PostsService.post_userId post =? u) posts)) in
  foldl (fun counts post =>
           <[PostsService.post_userId post :=
               default 0 (counts !! PostsService.post_userId post) + 1]> counts)
        counts posts !! u
  = if n =? 0 then counts !! u else Some (default 0 (counts !! u) + n).
Proof.
  revert counts. induction posts as [|p posts IH]; intros counts; [reflexivity |].
  cbn [foldl List.filter]. cbv zeta in IH. rewrite IH. clear IH.
  destruct (Z.eqb_spec (PostsService.post_userId p) u) as [E | Hne].
  - rewrite E, lookup_insert_eq. cbn [length default]. rewrite Nat2Z.inj_succ.
    match goal with
    | |- context [Z.of_nat (length ?l)] =>
        pose proof (Nat2Z.is_nonneg (length l)); generalize dependent (Z.of_nat (length l))
    end.
    intros n Hn.
    destruct (Z.eqb_spec (Z.succ n) 0) as [Hs | Hs]; [lia |].
    destruct (Z.eqb_spec n 0) as [Hn0 | Hn0]; f_equal; unfold id; lia.
  - rewrite lookup_insert_ne by exact Hne. reflexivity.
Qed.

(** X18. The per-user counts of [getPostCountByUser]: for every user id the
    object holds the number of posts of the list owned by that user, and
    holds no entry when there is none. On the backend's list these are the
    sizes of the lists [findByUserId] returns. *)
Theorem countByUser_counts (s : PostsService.State) (userId : Z) :
  exists l,
    PostsService.findByUserId userId s = (PostsService.Returned l, s)
    /\ countByUser (PostsService.posts s) !! userId
       = if decide (l = []) then None else Some (Z.of_nat (length l)).
Proof.
  eexists. split; [reflexivity |].
  unfold countByUser. rewrite countByUser_from. rewrite lookup_empty. cbn [default].
  destruct (List.filter _ _) as [|p l]; [reflexivity |].
  replace (Z.of_nat (length (p :: l)) =? 0) with false
    by (symmetry; apply Z.eqb_neq; simpl; lia).
  rewrite decide_False by discriminate. reflexivity.
Qed.

(** X19. For a payload with all three properties, [validatePostData]
    reports no error exactly when the user id is positive, the trimmed title
    has at least 5 characters and the title at most 100, the trimmed body
    has at least 10 characters and the body at most 1000; such a payload is
    never refused by [createPost] itself, which then sends its request. *)
Theorem validatePostData_complete
    (userId : Z) (title body : string) :
  (validatePostData (mkPartialPostRequest (Some userId) (Some title) (Some body)) = []
   <-> 0 < userId
       /\ (5 <= String.length (trim title) /\ String.length title <= 100)%nat
       /\ (10 <= String.length (trim body) /\ String.length body <= 1000)%nat)
  /\ (validatePostData (mkPartialPostRequest (Some userId) (Some title) (Some body)) = []
      -> forall JSON_parse baseURL fetch,
           createPost JSON_parse baseURL fetch (mkCreatePostRequest userId title body)
           = try_catch
               (andThen
                  (awaited (post JSON_parse
                     (fetch (mkRequest "POST" (baseURL +:+ "/posts")
                               (Some (createBody
                                        (mkCreatePostRequest userId title body)))))))
                  validateApiResponse)
               (rethrow_Error "Gönderi oluşturulurken bir hata oluştu")).
Proof.
  assert (Hblank : forall s n, (1 <= n)%nat -> trimmed_shorter s n = false ->
                               blank s = false /\ String.eqb s "" = false).
  { intros s n Hn H. unfold trimmed_shorter in H. apply Nat.ltb_ge in H.
    unfold blank. split.
    - destruct (trim s); [simpl in H; lia | reflexivity].
    - pose proof (trim_length s). destruct s; [simpl in *; lia | reflexivity]. }
  assert (Hiff :
    validatePostData (mkPartialPostRequest (Some userId) (Some title) (Some body)) = []
    <-> invalid_id userId = false
        /\ (trimmed_shorter title 5 = false /\ (100 <? String.length title)%nat = false)
        /\ (trimmed_shorter body 10 = false /\ (1000 <? String.length body)%nat = false)).
  { unfold validatePostData.
    cbn [part_userId part_title part_body].
    split.
    - intros H.
      destruct (invalid_id userId); [discriminate |]. cbn [app] in H.
      destruct (blank title) eqn:B1; [discriminate |]. cbn [app] in H.
      assert (N1 : String.eqb title "" = false).
      { destruct title; [discriminate B1 | reflexivity]. }
      rewrite N1 in H. cbn [negb andb] in H.
      destruct (trimmed_shorter title 5); [discriminate |]. cbn [app] in H.
      destruct (100 <? String.length title)%nat; [discriminate |]. cbn [app] in H.
      destruct (blank body) eqn:B2; [discriminate |]. cbn [app] in H.
      assert (N2 : String.eqb body "" = false).
      { destruct body; [discriminate B2 | reflexivity]. }
      rewrite N2 in H. cbn [negb andb] in H.
      destruct (trimmed_shorter body 10); [discriminate |]. cbn [app] in H.
      destruct (1000 <? String.length body)%nat; [discriminate |].
      repeat split.
    - intros (H1 & (H2 & H3) & (H4 & H5)).
      destruct (Hblank title 5%nat ltac:(lia) H2) as [B1 N1].
      destruct (Hblank body 10%nat ltac:(lia) H4) as [B2 N2].
      rewrite H1, B1, N1, H2, H3, B2, N2, H4, H5. reflexivity. }
  split.
  - rewrite Hiff, invalid_id_false. unfold trimmed_shorter.
    rewrite !Nat.ltb_ge. reflexivity.
  - intros H. apply Hiff in H as (H1 & (H2 & _) & (H4 & _)).
    destruct (Hblank title 5%nat ltac:(lia) H2) as [B1 _].
    destruct (Hblank body 10%nat ltac:(lia) H4) as [B2 _].
    intros JSON_parse baseURL fetch. unfold createPost, throwIf.
    cbn [req_userId req_title req_body]. rewrite H1, B1, H2, B2, H4. reflexivity.
Qed.

Lemma validatePostData_complete_witness :
  createPost sample_JSON_parse "http://localhost:3002/api"
    (fun _ => Rejects "Failed to fetch")
    (mkCreatePostRequest 2 "  A sixth post " "Some text for the body")
  = inl "Gönderi oluşturulurken bir hata oluştu".
Proof.
  rewrite (proj2 (validatePostData_complete 2 "  A sixth post " "Some text for the body")
             eq_refl).
  reflexivity.
Defined.

End PostServiceExtra.

(** ** The texts shown for the client's errors *)

Module HelpersExtra.
Import ApiClient ApiClaims ApiExtra Helpers.

(** Where a wrapper's rejection comes from. *)
Lemma rejection_origin (JSON_parse : string -> string + json) (net : FetchOutcome) :
  Forall (fun wrapper =>
            forall e, wrapper net = inl e ->
              (exists m, e = handleRequestError (ThrownError m)
                         /\ (net = Rejects m
                             \/ exists r, net = Resolves r /\ ok r = true))
              \/ (exists r, net = Resolves r /\ ok r = false
                            /\ e = handleHttpError JSON_parse r))
         (wrappers JSON_parse).
Proof.
  assert (Hget : forall e, get JSON_parse net = inl e ->
              (exists m, e = handleRequestError (ThrownError m)
                         /\ (net = Rejects m
                             \/ exists r, net = Resolves r /\ ok r = true))
              \/ (exists r, net = Resolves r /\ ok r = false
                            /\ e = handleHttpError JSON_parse r)).
  { intros e. rewrite get_cases. destruct net as [m | r].
    - intros E. inversion E. left. eauto.
    - destruct (ok r) eqn:Hok.
      + destruct (JSON_parse (body r)) as [m | d]; intros E; inversion E.
        left. exists m. split; [reflexivity |]. right. eauto.
      + intros E. inversion E. right. eauto. }
  unfold wrappers.
  repeat (apply Forall_cons; split); try solve [constructor]; cbv beta; as_get;
    try exact Hget.
  intros e. rewrite delete_cases. destruct net as [m | r].
  - intros E. inversion E. left. eauto.
  - destruct (ok r) eqn:Hok.
    + destruct (String.eqb (body r) ""); [discriminate |].
      destruct (JSON_parse (body r)) as [m | d]; intros E; inversion E.
      left. exists m. split; [reflexivity |]. right. eauto.
    + intros E. inversion E. right. eauto.
Qed.

(** X20. What [handleApiError] shows for the rejection of any wrapper: the
    network text when the fetch was rejected and also when a 2xx body could
    not be decoded, whatever the failure's own message; the fixed text of
    the status for an answer of status 400 or 404, whatever the server's
    message; and, for an answer whose status is outside 200-299 and not one
    of 0, 400, 401, 403, 404 and 500, the message of the record, that is
    the server's message, the status text or the [HTTP Error] text. *)
Theorem handleApiError_of_rejection
    (JSON_parse : string -> string + json) (net : FetchOutcome) :
  Forall (fun wrapper =>
            forall e, wrapper net = inl e ->
              match net with
              | Rejects _ =>
                  handleApiError (ThrownRecord e)
                  = JString "Ağ bağlantısı hatası. İnternet bağlantınızı kontrol ediniz."
              | Resolves r =>
                  (ok r = true ->
                   handleApiError (ThrownRecord e)
                   = JString "Ağ bağlantısı hatası. İnternet bağlantınızı kontrol ediniz.")
                  /\ (status r = 400 ->
                      handleApiError (ThrownRecord e)
                      = JString "Gönderilen bilgiler hatalı. Lütfen kontrol ediniz.")
                  /\ (status r = 404 ->
                      handleApiError (ThrownRecord e)
                      = JString "Aranan kaynak bulunamadı.")
                  /\ (ok r = false ->
                      ~ In (status r) [0; 400; 401; 403; 404; 500] ->
                      handleApiError (ThrownRecord e)
                      = error_message (handleHttpError JSON_parse r))
              end)
         (wrappers JSON_parse).
Proof.
  eapply Forall_impl; [apply rejection_origin |]. cbv beta.
  intros wrapper H e E. specialize (H e E).
  destruct H as [(m & -> & Hnet) | (r & -> & Hok & ->)].
  - destruct Hnet as [-> | (r & -> & Hok)]; [reflexivity |].
    split; [reflexivity |].
    pose proof Hok as Hrange. unfold ok in Hrange.
    apply andb_true_iff in Hrange as [H1 H2]. apply Z.leb_le in H1, H2.
    split; [intros; lia |]. split; [intros; lia |]. intros; congruence.
  - split; [congruence |].
    unfold handleApiError. rewrite handleHttpError_status.
    split; [intros ->; reflexivity |]. split; [intros ->; reflexivity |].
    intros _ Hnot. simpl in Hnot.
    destruct (Z.eqb_spec (status r) 400); [lia |].
    destruct (Z.eqb_spec (status r) 401); [lia |].
    destruct (Z.eqb_spec (status r) 403); [lia |].
    destruct (Z.eqb_spec (status r) 404); [lia |].
    destruct (Z.eqb_spec (status r) 500); [lia |].
    destruct (Z.eqb_spec (status r) 0); [lia |].
    simpl.
    destruct (handleHttpError_chain JSON_parse r) as (_ & Ht & _). cbv zeta in Ht.
    rewrite Ht. reflexivity.
Qed.

End HelpersExtra.

(** ** Regular expressions: the matcher and the e-mail pattern *)

Module RegexFacts.
Import Regex.

Lemma append_nil_l (s : string) : "" +:+ s = s.
Proof. reflexivity. Qed.

Lemma append_cons (c : ascii) (s1 s2 : string) :
  String c s1 +:+ s2 = String c (s1 +:+ s2).
Proof. reflexivity. Qed.

Lemma append_nil_inv (s1 s2 : string) : s1 +:+ s2 = "" -> s1 = "" /\ s2 = "".
Proof.
  destruct s1; [rewrite append_nil_l; auto | rewrite append_cons; discriminate].
Qed.

Lemma nullable_Matches (r : regex) : nullable r = true <-> Matches r "".
Proof.
  split.
  - induction r as [| | p | r1 IH1 r2 IH2 | r1 IH1 r2 IH2 | r IH]; simpl; intros H;
      try discriminate.
    + constructor.
    + apply andb_true_iff in H as [H1 H2].
      apply (MSeq r1 r2 "" ""); auto.
    + apply orb_true_iff in H as [H | H]; [apply MAltL | apply MAltR]; auto.
    + constructor.
  - intros H. remember "" as s eqn:Es.
    induction H as [| p c Hp | r1 r2 s1 s2 _ IH1 _ IH2 | r1 r2 s _ IH | r1 r2 s _ IH
                    | r | r s1 s2 _ _ _ _]; simpl; try reflexivity.
    + discriminate.
    + apply append_nil_inv in Es as [-> ->]. rewrite IH1, IH2; reflexivity.
    + rewrite IH by exact Es. reflexivity.
    + rewrite IH by exact Es. apply orb_true_r.
Qed.

Lemma deriv_Matches (c : ascii) (r : regex) (s : string) :
  Matches (deriv c r) s <-> Matches r (String c s).
Proof.
  split.
  - revert s. induction r as [| | p | r1 IH1 r2 IH2 | r1 IH1 r2 IH2 | r IH];
      simpl; intros s H.
    + inversion H.
    + inversion H.
    + destruct (p c) eqn:Hp; inversion H; subst. constructor. exact Hp.
    + destruct (nullable r1) eqn:Hn.
      * inversion H as [| | | ? ? ? H' | ? ? ? H' | |]; subst.
        -- inversion H' as [| | ? ? s1 s2 Ha Hb | | | |]; subst.
           apply (MSeq r1 r2 (String c s1) s2); auto.
        -- apply (MSeq r1 r2 "" (String c s)); [apply nullable_Matches, Hn | auto].
      * inversion H as [| | ? ? s1 s2 Ha Hb | | | |]; subst.
        apply (MSeq r1 r2 (String c s1) s2); auto.
    + inversion H; subst; [apply MAltL | apply MAltR]; auto.
    + inversion H as [| | ? ? s1 s2 Ha Hb | | | |]; subst.
      apply (MStarApp r (String c s1) s2); auto.
  - intros H. remember (String c s) as s0 eqn:Es. revert c s Es.
    induction H as [| p c' Hp | r1 r2 s1 s2 H1 IH1 H2 IH2 | r1 r2 s' _ IH | r1 r2 s' _ IH
                    | r | r s1 s2 H1 IH1 H2 IH2]; intros c s Es; simpl.
    + discriminate.
    + inversion Es; subst. rewrite Hp. constructor.
    + destruct s1 as [|c1 s1]; rewrite ?append_nil_l, ?append_cons in Es.
      * subst s2. assert (Hn : nullable r1 = true) by (apply nullable_Matches, H1).
        rewrite Hn. apply MAltR. apply IH2. reflexivity.
      * inversion Es; subst.
        assert (Hseq : Matches (Seq (deriv c r1) r2) (s1 +:+ s2)).
        { constructor; [apply IH1; reflexivity | exact H2]. }
        destruct (nullable r1); [apply MAltL |]; exact Hseq.
    + apply MAltL, IH, Es.
    + apply MAltR, IH, Es.
    + discriminate.
    + destruct s1 as [|c1 s1]; rewrite ?append_nil_l, ?append_cons in Es.
      * apply IH2, Es.
      * inversion Es; subst. constructor; [apply IH1; reflexivity | exact H2].
Qed.

(** The matcher decides the language. *)
Lemma test_Matches (r : regex) (s : string) : test r s = true <-> Matches r s.
Proof.
  revert r. induction s as [|c s IH]; intros r; simpl.
  - apply nullable_Matches.
  - rewrite IH. apply deriv_Matches.
Qed.

Lemma Matches_star_class (p : ascii -> bool) (s : string) :
  Matches (Star (Class p)) s <-> all_chars p s = true.
Proof.
  split.
  - intros H. remember (Star (Class p)) as r eqn:Er.
    induction H as [| | | | | r' | r' s1 s2 H1 _ _ IH2]; try discriminate.
    + reflexivity.
    + inversion Er; subst r'. inversion H1; subst.
      rewrite append_cons, append_nil_l. simpl.
      rewrite IH2 by reflexivity. rewrite H0. reflexivity.
  - induction s as [|c s IH]; simpl; intros H; [constructor |].
    apply andb_true_iff in H as [Hc Hs].
    apply (MStarApp (Class p) (String c "") s); [constructor; exact Hc | auto].
Qed.

Lemma Matches_plus_class (p : ascii -> bool) (s : string) :
  Matches (Plus (Class p)) s <-> s <> "" /\ all_chars p s = true.
Proof.
  unfold Plus. split.
  - intros H. inversion H as [| | ? ? s1 s2 H1 H2 | | | |]; subst.
    inversion H1; subst. rewrite append_cons, append_nil_l. simpl.
    apply Matches_star_class in H2.
    split; [discriminate |]. rewrite H2, H3. reflexivity.
  - intros [Hne H]. destruct s as [|c s]; [congruence |]. simpl in H.
    apply andb_true_iff in H as [Hc Hs].
    apply (MSeq (Class p) (Star (Class p)) (String c "") s);
      [constructor; exact Hc | apply Matches_star_class, Hs].
Qed.

Lemma Matches_char (c : ascii) (s : string) :
  Matches (Char c) s <-> s = String c "".
Proof.
  unfold Char. split.
  - intros H. inversion H; subst. apply Ascii.eqb_eq in H1. subst. reflexivity.
  - intros ->. constructor. apply Ascii.eqb_refl.
Qed.

Lemma Matches_seq (r1 r2 : regex) (s : string) :
  Matches (Seq r1 r2) s <-> exists s1 s2, s = s1 +:+ s2 /\ Matches r1 s1 /\ Matches r2 s2.
Proof.
  split.
  - intros H. inversion H; subst. eauto.
  - intros (s1 & s2 & -> & H1 & H2). constructor; assumption.
Qed.

Lemma emailRegex_shape (s : string) :
  test emailRegex s = true
  <-> exists local domain tld,
        s = local +:+ "@" +:+ domain +:+ "." +:+ tld
        /\ (local <> "" /\ all_chars notSpaceAt local = true)
        /\ (domain <> "" /\ all_chars notSpaceAt domain = true)
        /\ (tld <> "" /\ all_chars notSpaceAt tld = true).
Proof.
  rewrite test_Matches. unfold emailRegex. split.
  - intros H.
    apply Matches_seq in H as (a & s1 & -> & Ha & H).
    apply Matches_seq in H as (at_ & s2 & -> & Hat & H).
    apply Matches_seq in H as (b & s3 & -> & Hb & H).
    apply Matches_seq in H as (dot & c & -> & Hdot & Hc).
    apply Matches_char in Hat, Hdot. subst at_ dot.
    apply Matches_plus_class in Ha, Hb, Hc.
    exists a, b, c. auto.
  - intros (a & b & c & -> & Ha & Hb & Hc).
    apply Matches_plus_class in Ha, Hb, Hc.
    apply Matches_seq. exists a, ("@" +:+ b +:+ "." +:+ c). split; [reflexivity |].
    split; [exact Ha |].
    apply Matches_seq. exists "@", (b +:+ "." +:+ c). split; [reflexivity |].
    split; [apply Matches_char; reflexivity |].
    apply Matches_seq. exists b, ("." +:+ c). split; [reflexivity |].
    split; [exact Hb |].
    apply Matches_seq. exists ".", c. split; [reflexivity |].
    split; [apply Matches_char; reflexivity | exact Hc].
Qed.

End RegexFacts.

(** ** Form helpers and the user service *)

Module UserServiceExtra.
Import ApiClient ApiTransport JsString Regex RegexFacts PostService PostServiceExtra.
Import FormHelpers UserService.

(** X21. [validateEmail] accepts exactly the strings that, once trimmed,
    read [local@domain.tld] with three non-empty parts free of white space
    and of the at sign (the domain and the last part may contain dots). *)
Theorem validateEmail_shape (email : string) :
  validateEmail email = true
  <-> exists local domain tld,
        trim email = local +:+ "@" +:+ domain +:+ "." +:+ tld
        /\ (local <> "" /\ all_chars notSpaceAt local = true)
        /\ (domain <> "" /\ all_chars notSpaceAt domain = true)
        /\ (tld <> "" /\ all_chars notSpaceAt tld = true).
Proof.
  unfold validateEmail. apply emailRegex_shape.
Qed.

Lemma all_chars_app (p : ascii -> bool) (s1 s2 : string) :
  all_chars p (s1 +:+ s2) = all_chars p s1 && all_chars p s2.
Proof.
  induction s1 as [|c s1 IH]; [reflexivity |].
  rewrite append_cons. simpl. rewrite IH. apply andb_assoc.
Qed.

Lemma all_chars_impl (p q : ascii -> bool) (s : string) :
  (forall c, p c = true -> q c = true) -> all_chars p s = true -> all_chars q s = true.
Proof.
  intros Hpq. induction s as [|c s IH]; simpl; [reflexivity |].
  intros [Hc Hs]%andb_true_iff. rewrite (Hpq c Hc), IH by exact Hs. reflexivity.
Qed.

Lemma trimStart_no_space (s : string) :
  all_chars (fun c => negb (is_space c)) s = true -> trimStart s = s.
Proof.
  destruct s as [|c s]; simpl; [reflexivity |].
  intros [Hc _]%andb_true_iff. apply negb_true_iff in Hc. rewrite Hc. reflexivity.
Qed.

Lemma trimEnd_no_space (s : string) :
  all_chars (fun c => negb (is_space c)) s = true -> trimEnd s = s.
Proof.
  induction s as [|c s IH]; simpl; [reflexivity |].
  intros [Hc Hs]%andb_true_iff. rewrite IH by exact Hs.
  apply negb_true_iff in Hc. rewrite Hc. destruct s; reflexivity.
Qed.

(** A string the e-mail pattern matches has no white space, so trimming
    leaves it as it is. *)
Lemma emailRegex_trimmed (s : string) : test emailRegex s = true -> trim s = s.
Proof.
  intros H. apply emailRegex_shape in H
    as (a & b & c & -> & [_ Ha] & [_ Hb] & [_ Hc]).
  assert (Hns : forall t, all_chars notSpaceAt t = true ->
                          all_chars (fun c => negb (is_space c)) t = true).
  { intros t. apply all_chars_impl. intros x Hx. unfold notSpaceAt in Hx.
    apply andb_true_iff in Hx as [Hx _]. exact Hx. }
  assert (Hall : all_chars (fun c => negb (is_space c))
                   (a +:+ "@" +:+ b +:+ "." +:+ c) = true).
  { rewrite !all_chars_app, (Hns a Ha), (Hns b Hb), (Hns c Hc). reflexivity. }
  unfold trim. rewrite trimStart_no_space by exact Hall.
  apply trimEnd_no_space, Hall.
Qed.

(** X22. [createUser] either refuses by itself, with one of its four
    validation messages and whatever the network would do, or sends exactly
    the request [POST <baseURL>/users] with the payload as body; in the
    second case name and username are not blank and the address, untrimmed,
    reads [local@domain.tld] without white space. An address that
    [validateEmail] accepts but that carries white space around it is
    refused. *)
Theorem createUser_refuses_or_sends
    (JSON_parse : string -> string + json) (baseURL : string)
    (userData : CreateUserRequest) :
  ((exists message,
      In message ["Kullanıcı adı zorunludur";
                  "Kullanıcı nickname'i zorunludur";
                  "E-posta adresi zorunludur";
                  "Geçerli bir e-posta adresi giriniz"]
      /\ forall fetch, createUser JSON_parse baseURL fetch userData = inl message)
   \/ (blank (user_name userData) = false
       /\ blank (user_username userData) = false
       /\ trim (user_email userData) = user_email userData
       /\ (exists local domain tld,
             user_email userData = local +:+ "@" +:+ domain +:+ "." +:+ tld
             /\ (local <> "" /\ all_chars notSpaceAt local = true)
             /\ (domain <> "" /\ all_chars notSpaceAt domain = true)
             /\ (tld <> "" /\ all_chars notSpaceAt tld = true))
       /\ forall fetch,
            createUser JSON_parse baseURL fetch userData
            = try_catch
                (andThen
                   (awaited (post JSON_parse
                      (fetch (mkRequest "POST" (baseURL +:+ "/users")
                                (Some (UserService.createBody userData))))))
                   validateApiResponse)
                (rethrow_Error "Kullanıcı oluşturulurken bir hata oluştu")))
  /\ (blank (user_name userData) = false ->
      blank (user_username userData) = false ->
      validateEmail (user_email userData) = true ->
      trim (user_email userData) <> user_email userData ->
      forall fetch,
        createUser JSON_parse baseURL fetch userData
        = inl "Geçerli bir e-posta adresi giriniz").
Proof.
  split.
  - unfold createUser, throwIf, apiClient_post.
    destruct (blank (user_name userData)) eqn:H1;
      [left; eexists; split; [| intros fetch; reflexivity]; simpl; tauto |].
    destruct (blank (user_username userData)) eqn:H2;
      [left; eexists; split; [| intros fetch; reflexivity]; simpl; tauto |].
    destruct (blank (user_email userData)) eqn:H3;
      [left; eexists; split; [| intros fetch; reflexivity]; simpl; tauto |].
    destruct (test emailRegex (user_email userData)) eqn:H4;
      [| left; eexists; split; [| intros fetch; reflexivity]; simpl; tauto].
    right. split; [reflexivity |]. split; [reflexivity |].
    split; [apply emailRegex_trimmed, H4 |].
    split; [apply emailRegex_shape, H4 |].
    intros fetch. reflexivity.
  - intros H1 H2 Hv Hne fetch. unfold createUser, throwIf. rewrite H1, H2.
    assert (H3 : blank (user_email userData) = false).
    { unfold blank. unfold validateEmail in Hv.
      destruct (trim (user_email userData)); [discriminate Hv | reflexivity]. }
    rewrite H3.
    destruct (test emailRegex (user_email userData)) eqn:H4; [| reflexivity].
    apply emailRegex_trimmed in H4. contradiction.
Qed.

Lemma createUser_refuses_or_sends_witness :
  createUser sample_JSON_parse "http://localhost:3002/api"
    (fun _ => Rejects "Failed to fetch")
    (mkCreateUserRequest "John Doe" "johndoe" " john@example.com" None None)
  = inl "Geçerli bir e-posta adresi giriniz".
Proof.
  apply (proj2 (createUser_refuses_or_sends sample_JSON_parse "http://localhost:3002/api"
                  (mkCreateUserRequest "John Doe" "johndoe" " john@example.com" None None)));
    [reflexivity | reflexivity | reflexivity | discriminate].
Defined.

(** X23. For a payload with name, username and address, [validateUserData]
    reports no error exactly when name and username are not blank, the
    username has at least 3 characters and the address, untrimmed, matches
    the e-mail pattern; such a payload is never refused by [createUser]
    itself. *)
Theorem validateUserData_complete
    (name username email : string) (phone website : option string) :
  (validateUserData (mkPartialUserRequest (Some name) (Some username) (Some email)) = []
   <-> blank name = false
       /\ (blank username = false /\ (3 <= String.length username)%nat)
       /\ test emailRegex email = true)
  /\ (validateUserData (mkPartialUserRequest (Some name) (Some username) (Some email)) = []
      -> forall JSON_parse baseURL fetch,
           createUser JSON_parse baseURL fetch
             (mkCreateUserRequest name username email phone website)
           = try_catch
               (andThen
                  (awaited (post JSON_parse
                     (fetch (mkRequest "POST" (baseURL +:+ "/users")
                               (Some (UserService.createBody
                                        (mkCreateUserRequest name username email
                                           phone website)))))))
                  validateApiResponse)
               (rethrow_Error "Kullanıcı oluşturulurken bir hata oluştu")).
Proof.
  assert (Hne : forall s, blank s = false -> String.eqb s "" = false).
  { intros s H. destruct s; [discriminate H | reflexivity]. }
  assert (Hiff :
    validateUserData (mkPartialUserRequest (Some name) (Some username) (Some email)) = []
    <-> blank name = false
        /\ (blank username = false /\ (3 <= String.length username)%nat)
        /\ test emailRegex email = true).
  { unfold validateUserData. cbn [part_name part_username part_email]. split.
    - intros H.
      destruct (blank name); [discriminate |]. cbn [app] in H.
      destruct (blank username) eqn:B2; [discriminate |]. cbn [app] in H.
      rewrite (Hne username B2) in H. cbn [negb andb] in H.
      destruct (Nat.ltb_spec (String.length username) 3); [discriminate |].
      cbn [app] in H.
      destruct (blank email) eqn:B3; [discriminate |]. cbn [app] in H.
      rewrite (Hne email B3) in H. cbn [negb andb] in H.
      destruct (test emailRegex email); [| discriminate].
      repeat split. lia.
    - intros (H1 & (H2 & H3) & H4).
      assert (B3 : blank email = false).
      { apply emailRegex_trimmed in H4 as Ht. unfold blank. rewrite Ht.
        destruct email; [discriminate H4 | reflexivity]. }
      rewrite H1, H2, (Hne username H2), B3, (Hne email B3), H4.
      apply Nat.ltb_ge in H3. rewrite H3. reflexivity. }
  split; [exact Hiff |].
  intros H. apply Hiff in H as (H1 & (H2 & _) & H4).
  intros JSON_parse baseURL fetch. unfold createUser, throwIf.
  cbn [user_name user_username user_email].
  assert (B3 : blank email = false).
  { apply emailRegex_trimmed in H4 as Ht. unfold blank. rewrite Ht.
    destruct email; [discriminate H4 | reflexivity]. }
  rewrite H1, H2, B3, H4. reflexivity.
Qed.

Lemma substring0_length (text : string) (n : nat) :
  String.length (String.substring 0 n text) = Nat.min n (String.length text).
Proof.
  revert n. induction text as [|c text IH]; intros [|n]; simpl; try reflexivity.
  rewrite IH. reflexivity.
Qed.

Lemma substring0_prefix (text : string) (n : nat) :
  String.prefix (String.substring 0 n text) text = true.
Proof.
  revert n. induction text as [|c text IH]; intros [|n]; simpl; try reflexivity.
  rewrite IH. destruct (Ascii.ascii_dec c c); [reflexivity | congruence].
Qed.

Lemma append_length (s1 s2 : string) :
  String.length (s1 +:+ s2) = (String.length s1 + String.length s2)%nat.
Proof.
  induction s1 as [|c s1 IH]; [reflexivity |].
  rewrite append_cons. simpl. rewrite IH. reflexivity.
Qed.

(** X24. [truncateText] returns a text of at most [maxLength] characters
    unchanged. A longer text is cut to a prefix followed by three dots: for
    [maxLength] of at least 3 the result has exactly [maxLength] characters,
    and for a smaller [maxLength] the result is the three dots alone, longer
    than [maxLength]. *)
Theorem truncateText_bounds (text : string) (maxLength : Z) :
  (Z.of_nat (String.length text) <= maxLength -> truncateText text maxLength = text)
  /\ (maxLength < Z.of_nat (String.length text) ->
      exists kept,
        truncateText text maxLength = kept +:+ "..."
        /\ String.prefix kept text = true
        /\ (3 <= maxLength ->
            Z.of_nat (String.length (truncateText text maxLength)) = maxLength)
        /\ (maxLength < 3 -> truncateText text maxLength = "...")).
Proof.
  unfold truncateText, substring0. split.
  - intros H. apply Z.leb_le in H. rewrite H. reflexivity.
  - intros H. apply Z.leb_gt in H as Hb. rewrite Hb.
    exists (String.substring 0 (Z.to_nat (maxLength - 3)) text).
    split; [reflexivity |]. split; [apply substring0_prefix |]. split.
    + intros H3. rewrite append_length, substring0_length. simpl. lia.
    + intros H3. replace (Z.to_nat (maxLength - 3)) with 0%nat by lia.
      destruct text; reflexivity.
Qed.

End UserServiceExtra.
